(** * frai: the contract generator's client

    A shallow embedding of the React client of the contract generator:
    - [ContractForm.tsx]: the input form and its [handleSubmit];
    - [ContractGenerator.tsx]: the streaming session ([handleGenerateContract],
      [getFullContract], [handleStopGeneration], [handleDownload]) and the
      part of its render tree that chooses what is displayed;
    - [ContractDisplay.tsx]: the fields the display reads from its props;
    - [types] (ContractType, ContractGenerationRequest,
      ContractGenerationResponse).

    JavaScript strings are sequences of UTF-16 code units; objects are finite
    maps from property names to values; the async functions are a transition
    system whose events are the completions of their [await]s and the user's
    clicks. *)

From Stdlib Require Import Ascii NArith QArith.
From stdpp Require Import gmap strings list fin_maps.

Set Warnings "-register-all".

Local Open Scope N_scope.
Local Open Scope list_scope.

(** ** JavaScript strings *)

Module JsString.

(** A UTF-16 code unit. *)
Definition code_unit : Type := N.

Definition jsstring : Type := list code_unit.

(** String literals of the source, all of them ASCII. *)
Fixpoint js (s : string) : jsstring :=
  match s with
  | EmptyString => []
  | String a s' => N_of_ascii a :: js s'
  end.

Definition unit_eqb (a b : code_unit) : bool := N.eqb a b.

(** [s.startsWith(p)] *)
Fixpoint startsWith (s p : jsstring) {struct p} : bool :=
  match p, s with
  | [], _ => true
  | _ :: _, [] => false
  | b :: p', a :: s' => unit_eqb a b && startsWith s' p'
  end.

(** [s.includes(p)] *)
Fixpoint includes (s p : jsstring) : bool :=
  startsWith s p ||
  match s with
  | [] => false
  | _ :: s' => includes s' p
  end.

(** [s.slice(n)] for [n >= 0] *)
Definition slice (n : nat) (s : jsstring) : jsstring := drop n s.

(** [s.split(sep)] for a separator of one code unit, which is what the
    source passes (a line feed and an equals sign). The result is never
    empty: a string without the separator gives a one-element array. *)
Fixpoint split (sep : code_unit) (s : jsstring) : list jsstring :=
  match s with
  | [] => [[]]
  | a :: s' =>
      if unit_eqb a sep then [] :: split sep s'
      else match split sep s' with
           | [] => [[a]]
           | w :: ws => (a :: w) :: ws
           end
  end.

(** ECMAScript WhiteSpace and LineTerminator code units, the ones
    [String.prototype.trim] strips. *)
Definition is_whitespace (a : code_unit) : bool :=
  (a =? 9) || (a =? 10) || (a =? 11) || (a =? 12) || (a =? 13) ||
  (a =? 32) || (a =? 160) || (a =? 5760) ||
  ((8192 <=? a) && (a <=? 8202)) ||
  (a =? 8232) || (a =? 8233) || (a =? 8239) || (a =? 8287) ||
  (a =? 12288) || (a =? 65279).

Fixpoint trimStart (s : jsstring) : jsstring :=
  match s with
  | [] => []
  | a :: s' => if is_whitespace a then trimStart s' else s
  end.

Definition trimEnd (s : jsstring) : jsstring := rev (trimStart (rev s)).

(** [s.trim()] *)
Definition trim (s : jsstring) : jsstring := trimEnd (trimStart s).

(** A string is falsy exactly when it is empty. *)
Definition nonempty (s : jsstring) : bool :=
  match s with [] => false | _ :: _ => true end.

(** [a || b] on strings *)
Definition or_else (a b : jsstring) : jsstring :=
  if nonempty a then a else b.

Arguments js : simpl never.
Arguments slice : simpl never.

End JsString.
Import JsString.

(** ** JavaScript values *)

Module JsValue.

(** JSON values as the client sees them after [response.json()], with
    [undefined] for what a property read gives on a missing key. *)
Inductive value : Type :=
| VUndefined
| VNull
| VBool (b : bool)
| VNum (q : Q)
| VStr (s : jsstring)
| VArr (l : list value)
| VObj (o : gmap string value).

(** [o.k]: a property read. On the values here other than objects the
    property names the client uses are not defined. *)
Definition get (k : string) (v : value) : value :=
  match v with
  | VObj o => default VUndefined (o !! k)
  | _ => VUndefined
  end.

(** ToBoolean *)
Definition truthy (v : value) : bool :=
  match v with
  | VUndefined | VNull => false
  | VBool b => b
  | VNum q => negb (Qeq_bool q 0)
  | VStr s => nonempty s
  | VArr _ | VObj _ => true
  end.

Definition is_undefined (v : value) : bool :=
  match v with VUndefined => true | _ => false end.

(** An object literal [{k1: v1, ...}]; later keys win, as in JavaScript. *)
Definition obj (fields : list (string * value)) : value :=
  VObj (list_to_map (reverse fields)).

End JsValue.
Import JsValue.

(** ** The declared types ([types], [ContractGenerator.tsx] lines 15-24) *)

Module Types.

Inductive ContractType : Type :=
| TERMS_OF_SERVICE
| PRIVACY_POLICY
| SERVICE_AGREEMENT
| NDA
| EMPLOYMENT_CONTRACT
| PARTNERSHIP_AGREEMENT.

(** The string each member of the enum stands for. *)
Definition ContractType_value (t : ContractType) : jsstring :=
  match t with
  | TERMS_OF_SERVICE => js "terms_of_service"
  | PRIVACY_POLICY => js "privacy_policy"
  | SERVICE_AGREEMENT => js "service_agreement"
  | NDA => js "nda"
  | EMPLOYMENT_CONTRACT => js "employment_contract"
  | PARTNERSHIP_AGREEMENT => js "partnership_agreement"
  end.

Definition ContractType_all : list ContractType :=
  [TERMS_OF_SERVICE; PRIVACY_POLICY; SERVICE_AGREEMENT; NDA;
   EMPLOYMENT_CONTRACT; PARTNERSHIP_AGREEMENT].

(** A TypeScript type, as far as the interfaces of the client go. A field
    is a name, whether it is required, and its type. *)
Inductive ty : Type :=
| TString
| TNumber
| TAny
| TEnum (members : list jsstring)
| TArray (elt : ty)
| TInterface (fields : list (string * (bool * ty))).

Definition jsstring_eqb (a b : jsstring) : bool := bool_decide (a = b).

(** [v] is a value of type [t]. An optional field may be absent. *)
Fixpoint conforms (t : ty) (v : value) {struct t} : bool :=
  match t with
  | TString => match v with VStr _ => true | _ => false end
  | TNumber => match v with VNum _ => true | _ => false end
  | TAny => true
  | TEnum members =>
      match v with
      | VStr s => existsb (jsstring_eqb s) members
      | _ => false
      end
  | TArray elt =>
      match v with
      | VArr l => forallb (conforms elt) l
      | _ => false
      end
  | TInterface fields =>
      match v with
      | VObj _ =>
          (fix all (fs : list (string * (bool * ty))) : bool :=
             match fs with
             | [] => true
             | (k, (required, tk)) :: fs' =>
                 (if is_undefined (get k v) then negb required
                  else conforms tk (get k v)) && all fs'
             end) fields
      | _ => false
      end
  end.

Definition field_names (t : ty) : list string :=
  match t with
  | TInterface fields => fst <$> fields
  | _ => []
  end.

Definition ContractType_ty : ty := TEnum (ContractType_value <$> ContractType_all).

Definition BusinessContext : ty :=
  TInterface [("description", (true, TString));
              ("industry", (false, TString));
              ("location", (false, TString));
              ("company_size", (false, TString))]%string.

Definition ContractGenerationRequest : ty :=
  TInterface [("business_context", (true, BusinessContext));
              ("contract_type", (true, ContractType_ty));
              ("custom_sections", (false, TArray TString));
              ("language", (true, TString));
              ("jurisdiction", (false, TString))]%string.

Definition ContractSection : ty :=
  TInterface [("title", (true, TString));
              ("content", (true, TString));
              ("section_number", (true, TNumber));
              ("subsection_number", (false, TNumber))]%string.

(** The response of the full-document retrieval. *)
Definition ContractGenerationResponse : ty :=
  TInterface [("contract_id", (true, TString));
              ("contract_type", (true, ContractType_ty));
              ("sections", (true, TArray ContractSection));
              ("total_sections", (true, TNumber));
              ("estimated_pages", (true, TNumber));
              ("generation_time", (true, TNumber));
              ("model_used", (true, TString))]%string.

(** The type the generator declares for its [contractData] state. *)
Definition ContractData : ty :=
  TInterface [("contractId", (true, TString));
              ("contractType", (true, ContractType_ty));
              ("sections", (true, TArray TAny));
              ("totalSections", (true, TNumber));
              ("estimatedPages", (true, TNumber));
              ("generationTime", (true, TNumber));
              ("modelUsed", (true, TString));
              ("htmlContent", (true, TString))]%string.

(** An object with no property outside the fields [t] declares. *)
Definition only_declared_fields (t : ty) (v : value) : Prop :=
  match v with
  | VObj o => forall k, is_Some (o !! k) -> k ∈ field_names t
  | _ => False
  end.

End Types.
Import Types.

(** ** [ContractForm.tsx] *)

Module ContractForm.

(** The two [useState] cells of the form (lines 22-25). *)
Record state : Type := {
  businessDescription : jsstring;
  contractType : ContractType
}.

Definition initial : state :=
  {| businessDescription := []; contractType := TERMS_OF_SERVICE |}.

(** [onChange] of the textarea (line 58), the only setter the rendered
    form calls: the select that called [setContractType] is commented out
    (lines 126-152). *)
Definition setBusinessDescription (v : jsstring) (st : state) : state :=
  {| businessDescription := v; contractType := contractType st |}.

(** [handleSubmit] (lines 27-43): [None] when it alerts and returns,
    otherwise the [formData] it hands to [onSubmit]. *)
Definition handleSubmit (st : state) : option value :=
  if negb (nonempty (trim (businessDescription st))) then None
  else
    Some (obj [("business_context",
                obj [("description", VStr (trim (businessDescription st)))]);
               ("contract_type",
                VStr (ContractType_value (contractType st)))]%string).

End ContractForm.

(** ** [ContractGenerator.tsx] *)

Module ContractGenerator.

(** [JSON.stringify] as the receiver reads it back: properties whose value
    is [undefined] are left out. The objects the client sends hold
    [undefined] at the top level only. *)
Definition JSON_stringify (v : value) : value :=
  match v with
  | VObj o => VObj (filter (fun kv => is_undefined kv.2 = false) o)
  | _ => v
  end.

Inductive request : Type :=
| POST_generate_contract (body : value)
| POST_generate_contract_full (body : value)
| POST_download_contract (body : value).

(** Where a call of [handleGenerateContract] is suspended; [Idle] when it
    has returned. *)
Inductive await_point : Type :=
| Idle
| AwaitResponse                     (* line 46, fetch *)
| AwaitErrorBody                    (* line 56, response.json() *)
| AwaitRead (content : jsstring)    (* line 73, reader.read() *)
| AwaitFull.                        (* line 83, getFullContract *)

(** The state of the component and the calls in flight. The Generate
    button is back as soon as [isGenerating] is false, so a call of
    [handleGenerateContract] can start while earlier ones still await:
    one call is in focus, the one whose promise settles next, and the
    others are parked. *)
Record machine : Type := {
  form : ContractForm.state;
  isGenerating : bool;
  contractData : value;
  streamingContent : jsstring;
  error : option jsstring;
  (** [abortControllerRef.current]: [None] for null, otherwise whether the
      controller's signal is aborted. *)
  abortController : option bool;
  (** The await point of the call in focus. *)
  at_await : await_point;
  (** Every request sent so far, oldest first. *)
  requests : list request;
  (** The await points of the other calls started so far. *)
  parked : list await_point;
  (** The call whose fetch carries the signal of the controller in the
      ref, the last one started: [None] when it is the call in focus,
      otherwise its place among the parked ones. *)
  latest : option nat;
  (** How many of the download requests have been answered. *)
  downloads_answered : nat
}.

Definition initial : machine :=
  {| form := ContractForm.initial; isGenerating := false;
     contractData := VNull; streamingContent := []; error := None;
     abortController := None; at_await := Idle; requests := [];
     parked := []; latest := None; downloads_answered := 0%nat |}.

Definition setForm (f : ContractForm.state) (m : machine) : machine :=
  {| form := f; isGenerating := isGenerating m;
     contractData := contractData m; streamingContent := streamingContent m;
     error := error m; abortController := abortController m;
     at_await := at_await m; requests := requests m; parked := parked m;
     latest := latest m; downloads_answered := downloads_answered m |}.

Definition setIsGenerating (b : bool) (m : machine) : machine :=
  {| form := form m; isGenerating := b; contractData := contractData m;
     streamingContent := streamingContent m; error := error m;
     abortController := abortController m; at_await := at_await m;
     requests := requests m; parked := parked m; latest := latest m;
     downloads_answered := downloads_answered m |}.

Definition setContractData (d : value) (m : machine) : machine :=
  {| form := form m; isGenerating := isGenerating m; contractData := d;
     streamingContent := streamingContent m; error := error m;
     abortController := abortController m; at_await := at_await m;
     requests := requests m; parked := parked m; latest := latest m;
     downloads_answered := downloads_answered m |}.

Definition setStreamingContent (s : jsstring) (m : machine) : machine :=
  {| form := form m; isGenerating := isGenerating m;
     contractData := contractData m; streamingContent := s; error := error m;
     abortController := abortController m; at_await := at_await m;
     requests := requests m; parked := parked m; latest := latest m;
     downloads_answered := downloads_answered m |}.

Definition setError (e : option jsstring) (m : machine) : machine :=
  {| form := form m; isGenerating := isGenerating m;
     contractData := contractData m; streamingContent := streamingContent m;
     error := e; abortController := abortController m;
     at_await := at_await m; requests := requests m; parked := parked m;
     latest := latest m; downloads_answered := downloads_answered m |}.

Definition setAbortController (a : option bool) (m : machine) : machine :=
  {| form := form m; isGenerating := isGenerating m;
     contractData := contractData m; streamingContent := streamingContent m;
     error := error m; abortController := a; at_await := at_await m;
     requests := requests m; parked := parked m; latest := latest m;
     downloads_answered := downloads_answered m |}.

Definition suspend (p : await_point) (m : machine) : machine :=
  {| form := form m; isGenerating := isGenerating m;
     contractData := contractData m; streamingContent := streamingContent m;
     error := error m; abortController := abortController m; at_await := p;
     requests := requests m; parked := parked m; latest := latest m;
     downloads_answered := downloads_answered m |}.

Definition send (r : request) (m : machine) : machine :=
  {| form := form m; isGenerating := isGenerating m;
     contractData := contractData m; streamingContent := streamingContent m;
     error := error m; abortController := abortController m;
     at_await := at_await m; requests := requests m ++ [r];
     parked := parked m; latest := latest m;
     downloads_answered := downloads_answered m |}.

Definition setParked (ps : list await_point) (m : machine) : machine :=
  {| form := form m; isGenerating := isGenerating m;
     contractData := contractData m; streamingContent := streamingContent m;
     error := error m; abortController := abortController m;
     at_await := at_await m; requests := requests m; parked := ps;
     latest := latest m; downloads_answered := downloads_answered m |}.

Definition setLatest (l : option nat) (m : machine) : machine :=
  {| form := form m; isGenerating := isGenerating m;
     contractData := contractData m; streamingContent := streamingContent m;
     error := error m; abortController := abortController m;
     at_await := at_await m; requests := requests m; parked := parked m;
     latest := l; downloads_answered := downloads_answered m |}.

Definition setDownloadsAnswered (n : nat) (m : machine) : machine :=
  {| form := form m; isGenerating := isGenerating m;
     contractData := contractData m; streamingContent := streamingContent m;
     error := error m; abortController := abortController m;
     at_await := at_await m; requests := requests m; parked := parked m;
     latest := latest m; downloads_answered := n |}.

(** What [handleGenerateContract] catches (lines 98-104). *)
Inductive thrown : Type :=
| AbortError
| Error (message : jsstring).

Definition cancelled_message : jsstring := js "Contract generation was cancelled".

(** The [catch] and [finally] of [handleGenerateContract], lines 98-107. *)
Definition catch_finally (err : thrown) (m : machine) : machine :=
  let m1 :=
    match err with
    | AbortError => setError (Some cancelled_message) m
    | Error message =>
        setError (Some (or_else message (js "Failed to generate contract"))) m
    end in
  suspend Idle (setIsGenerating false m1).

(** The [finally] alone, after a [return] or the end of the [try]. *)
Definition finally (m : machine) : machine :=
  suspend Idle (setIsGenerating false m).

(** [line.split("=")[1]] *)
Definition split_eq_1 (line : jsstring) : value :=
  default VUndefined (VStr <$> (split 61 line !! 1%nat)).

(** [getFullContract] up to its fetch (lines 110-120). The fetch takes no
    abort signal. *)
Definition getFullContract (contract_id : value) (m : machine) : machine :=
  suspend AwaitFull
    (send (POST_generate_contract_full
             (JSON_stringify (obj [("contract_id", contract_id)]%string))) m).

Definition END_OF_DOC : jsstring := js "[END_OF_DOC=".

(** The [for] loop over the lines of one chunk, lines 79-96, and after
    its last line the next [reader.read()]. *)
Fixpoint for_lines (lines : list jsstring) (content : jsstring)
    (m : machine) : machine :=
  match lines with
  | [] => suspend (AwaitRead content) m
  | line :: rest =>
      if includes line END_OF_DOC then
        getFullContract (split_eq_1 line) m
      else if startsWith line (js "data: ") then
        let data := slice 6 line in
        if startsWith data (js "Error:") then
          catch_finally (Error data) m
        else
          for_lines rest (content ++ data)
            (setStreamingContent (content ++ data) m)
      else for_lines rest content m
  end.

(** A call starts: the call in focus until now, returned or not, is
    parked, and the new call is the one in focus and the last started. *)
Definition park (m : machine) : machine :=
  setLatest None (setParked (parked m ++ [at_await m]) m).

(** [handleGenerateContract] up to its fetch, lines 37-53. The controller
    it puts in the ref is a new one. *)
Definition handleGenerateContract (formData : value) (m : machine) : machine :=
  let m0 := park m in
  let m1 := setIsGenerating true m0 in
  let m2 := setError None m1 in
  let m3 := setStreamingContent [] m2 in
  let m4 := setContractData VNull m3 in
  let m5 := setAbortController (Some false) m4 in
  suspend AwaitResponse
    (send (POST_generate_contract (JSON_stringify formData)) m5).

(** The promise that settles next is one of the parked call [call]: it
    comes into focus and the call in focus is parked in its place. *)
Definition switch (call : nat) (m : machine) : machine :=
  match parked m !! call with
  | None => m
  | Some p =>
      let l :=
        match latest m with
        | None => Some call
        | Some j => if decide (j = call) then None else Some j
        end in
      setLatest l (setParked (<[call := at_await m]> (parked m)) (suspend p m))
  end.

(** The awaits that carry the signal: the fetch of line 46 and the reads
    of its body reject with an AbortError when the signal is aborted; the
    fetch of [getFullContract] does not carry it. *)
Definition rejected_by_abort (m : machine) : machine :=
  match at_await m with
  | AwaitResponse | AwaitErrorBody | AwaitRead _ => catch_finally AbortError m
  | AwaitFull | Idle => m
  end.

(** [handleStopGeneration], lines 134-140, and what the abort does to the
    call that owns the controller of the ref, the last one started,
    whether it is in focus or parked. *)
Definition handleStopGeneration (m : machine) : machine :=
  let m1 :=
    match abortController m with
    | Some _ => setAbortController (Some true) m
    | None => m
    end in
  let m2 := setIsGenerating false m1 in
  match latest m2 with
  | None => rejected_by_abort m2
  | Some call =>
      match parked m2 !! call with
      | Some _ => switch call (rejected_by_abort (switch call m2))
      | None => m2
      end
  end.

(** [handleDownload] up to its fetch, lines 142-158. *)
Definition handleDownload (m : machine) : machine :=
  if negb (truthy (contractData m)) then m
  else
    send (POST_download_contract
            (JSON_stringify
               (obj [("businessContext", get "businessContext" (contractData m));
                     ("contractType", get "contractType" (contractData m));
                     ("customSections", VArr []);
                     ("language", VStr (js "en"));
                     ("jurisdiction", VStr [])]%string))) m.

Definition is_download_request (r : request) : bool :=
  match r with POST_download_contract _ => true | _ => false end.

(** A download request has been sent and not answered yet. *)
Definition download_pending (m : machine) : bool :=
  (downloads_answered m <? length (filter (fun r => is_download_request r = true) (requests m)))%nat.

(** The rest of [handleDownload], lines 160-175, when its fetch settles:
    [None] when the file is handed to the browser (the blob and the anchor
    change nothing of the state), otherwise the message of the error
    thrown, which the [catch] puts in the error state. *)
Definition download_answered (thrown_message : option jsstring)
    (m : machine) : machine :=
  if download_pending m then
    let m1 := setDownloadsAnswered (S (downloads_answered m)) m in
    match thrown_message with
    | None => m1
    | Some message =>
        setError (Some (or_else message (js "Failed to download contract"))) m1
    end
  else m.

Inductive event : Type :=
(* the user *)
| Type_description (text : jsstring)
| Click_generate
| Click_stop
| Click_download
(* line 46: the fetch settles *)
| Fetch_failed (message : jsstring)
| Response_not_ok
| Response_without_body
| Response_ok
(* lines 56-61: the error thrown from the body of a failed response *)
| Error_body_thrown (message : jsstring)
(* line 73: a read settles; the chunk is given decoded *)
| Read_chunk (chunk : jsstring)
| Read_done
| Read_failed (message : jsstring)
(* getFullContract, lines 112-131 *)
| Full_failed (message : jsstring)
| Full_not_ok (status : jsstring)
| Full_ok (data : value)
(* the promise that settles next belongs to a parked call *)
| Switch (call : nat)
(* handleDownload, lines 146-175: its fetch, or what follows it, settles *)
| Download_failed (message : jsstring)
| Download_not_ok
| Download_ok.

(** A promise of the call in focus settles. One that is not awaited
    where the call stands does not settle. *)
Definition settle (m : machine) (e : event) : machine :=
  match e, at_await m with
  | Fetch_failed message, AwaitResponse => catch_finally (Error message) m
  | Response_not_ok, AwaitResponse => suspend AwaitErrorBody m
  | Response_without_body, AwaitResponse =>
      catch_finally (Error (js "No response body")) m
  | Response_ok, AwaitResponse => suspend (AwaitRead []) m
  | Error_body_thrown message, AwaitErrorBody =>
      catch_finally (Error message) m
  | Read_chunk chunk, AwaitRead content =>
      for_lines (split 10 chunk) content m
  | Read_done, AwaitRead _ => finally m
  | Read_failed message, AwaitRead _ => catch_finally (Error message) m
  | Full_failed message, AwaitFull =>
      finally (setError (Some (or_else message (js "Failed to get full contract"))) m)
  | Full_not_ok status, AwaitFull =>
      finally (setError (Some (or_else (js "HTTP error! status: " ++ status)
                                 (js "Failed to get full contract"))) m)
  | Full_ok data, AwaitFull => finally (setContractData data m)
  | _, _ => m
  end.

(** One event. An event that cannot happen where the machine stands
    leaves it as it is: the Generate button shows when [isGenerating] is
    false, the Stop button when it is true, the Download button when
    [contractData] is set, and a promise settles only where it is
    awaited. A render that throws takes the page down, and with it the
    buttons; the clicks are not taken away here after such a render, so
    the runs of the machine include those of the page. *)
Definition step (m : machine) (e : event) : machine :=
  match e with
  | Type_description text =>
      setForm (ContractForm.setBusinessDescription text (form m)) m
  | Click_generate =>
      if isGenerating m then m
      else match ContractForm.handleSubmit (form m) with
           | None => m
           | Some formData => handleGenerateContract formData m
           end
  | Click_stop =>
      if isGenerating m then handleStopGeneration m else m
  | Click_download => handleDownload m
  | Switch call => switch call m
  | Download_failed message => download_answered (Some message) m
  | Download_not_ok =>
      download_answered (Some (js "Failed to download contract")) m
  | Download_ok => download_answered None m
  | _ => settle m e
  end.

Definition run (evs : list event) (m : machine) : machine :=
  fold_left step evs m.

(** What the right column mounts, lines 251-264: the props of each
    [ContractDisplay]. *)
Record display_props : Type := {
  content : value;
  isStreaming : bool;
  metadata : value
}.

Definition render (m : machine) : list display_props :=
  (if nonempty (streamingContent m) && negb (truthy (contractData m)) then
     [{| content := VStr (streamingContent m);
         isStreaming := isGenerating m;
         metadata := VUndefined |}]
   else []) ++
  (if truthy (contractData m) then
     [{| content := get "htmlContent" (contractData m);
         isStreaming := false;
         metadata := contractData m |}]
   else []).

End ContractGenerator.

(** ** [ContractDisplay.tsx] *)

Module ContractDisplay.

Import ContractGenerator.

(** [\w] of a regular expression without the unicode flag. *)
Definition is_word (a : code_unit) : bool :=
  ((48 <=? a) && (a <=? 57)) || ((65 <=? a) && (a <=? 90)) ||
  (a =? 95) || ((97 <=? a) && (a <=? 122)).

(** [toUpperCase] of one [\w] code unit. *)
Definition toUpperCase (a : code_unit) : code_unit :=
  if (97 <=? a) && (a <=? 122) then a - 32 else a.

(** [.replace(/\b\w/g, l => l.toUpperCase())]: a word character is at a
    word boundary when the code unit before it is not one. *)
Fixpoint capitalize (after_word : bool) (s : jsstring) : jsstring :=
  match s with
  | [] => []
  | a :: s' =>
      (if is_word a && negb after_word then toUpperCase a else a)
        :: capitalize (is_word a) s'
  end.

(** [formatContractType], lines 15-17, on a string. *)
Definition formatContractType (type : jsstring) : jsstring :=
  capitalize false ((fun a => if a =? 95 then 32 else a) <$> type).

(** The "Contract Details" box, lines 22-53. *)
Record details : Type := {
  contract_type_text : jsstring;
  total_sections : value;
  estimated_pages : value;
  generation_time : value;
  model_used : value
}.

(** What one [ContractDisplay] puts on the page. *)
Record view : Type := {
  shown_details : option details;
  inner_html : value;
  live : bool
}.

(** What React accepts as a child: anything but an object, and an array
    of such. *)
Fixpoint renderable (v : value) : bool :=
  match v with
  | VObj _ => false
  | VArr l => forallb renderable l
  | _ => true
  end.

(** The properties of the metadata put on the page as children, lines
    35-50. *)
Definition child_fields : list string :=
  ["total_sections"; "estimated_pages"; "generation_time"; "model_used"]%string.

(** The component, lines 19-97. [None] is a render that throws: the
    argument of [formatContractType] must have a [replace] method, the
    metadata put on the page must be valid children, and a truthy
    [content] must have an [includes] method (lines 88-92). *)
Definition ContractDisplay (props : display_props) : option view :=
  let box :=
    if truthy (metadata props) then
      match get "contract_type" (metadata props) with
      | VStr type =>
          if forallb (fun k => renderable (get k (metadata props))) child_fields
          then
            Some (Some {| contract_type_text := formatContractType type;
                          total_sections := get "total_sections" (metadata props);
                          estimated_pages := get "estimated_pages" (metadata props);
                          generation_time := get "generation_time" (metadata props);
                          model_used := get "model_used" (metadata props) |})
          else None
      | _ => None
      end
    else Some None in
  let stats_ok :=
    match content props with
    | VBool true | VNum _ | VObj _ => negb (truthy (content props))
    | _ => true
    end in
  match box with
  | Some d =>
      if stats_ok then
        Some {| shown_details := d; inner_html := content props;
                live := isStreaming props |}
      else None
  | None => None
  end.

(** The properties of [contractData] the two components read to draw a
    finished contract ([ContractGenerator.tsx] line 260 and
    [ContractDisplay.tsx] lines 29-50). *)
Definition fields_read : list string :=
  ["htmlContent"; "contract_type"; "total_sections"; "estimated_pages";
   "generation_time"; "model_used"]%string.

(** The right column as drawn. *)
Definition page (m : machine) : list (option view) :=
  ContractDisplay <$> render m.

End ContractDisplay.

(** ** The generation endpoint's check of the description *)

Module Server.


End Server.

(** ** The vocabulary of the claims *)

Module Protocol.

Import ContractGenerator.

(** The text of [s] up to its first [sep], or all of it. *)
Fixpoint until (sep : code_unit) (s : jsstring) : jsstring :=
  match s with
  | [] => []
  | c :: s' => if unit_eqb c sep then [] else c :: until sep s'
  end.

(** The text of [s] after its first [sep]. *)
Fixpoint after_first (sep : code_unit) (s : jsstring) : jsstring :=
  match s with
  | [] => []
  | c :: s' => if unit_eqb c sep then s' else after_first sep s'
  end.

(** The lines the client sees in a sequence of chunks. *)
Definition lines_of (chunks : list jsstring) : list jsstring :=
  chunks ≫= split 10.

Definition is_sentinel (line : jsstring) : bool := includes line END_OF_DOC.

Definition is_data (line : jsstring) : bool := startsWith line (js "data: ").

(** The text after the "data: " prefix. *)
Definition payload (line : jsstring) : jsstring := slice 6 line.

Definition is_error (line : jsstring) : bool :=
  is_data line && startsWith (payload line) (js "Error:").

(** A line that ends the reading: a sentinel or an error. *)
Definition is_terminal (line : jsstring) : bool :=
  is_sentinel line || is_error line.

(** The lines before the first terminal one. *)
Fixpoint before_terminal (lines : list jsstring) : list jsstring :=
  match lines with
  | [] => []
  | line :: rest =>
      if is_terminal line then [] else line :: before_terminal rest
  end.

(** The payloads of the data lines among [lines], concatenated in order. *)
Fixpoint payloads (lines : list jsstring) : jsstring :=
  match lines with
  | [] => []
  | line :: rest =>
      if is_data line then payload line ++ payloads rest else payloads rest
  end.

Definition whitespace_only (s : jsstring) : bool := forallb is_whitespace s.

(** The await points at which the request of line 46, or its body, is
    awaited. *)
Definition awaits_stream (p : await_point) : bool :=
  match p with
  | AwaitResponse | AwaitErrorBody | AwaitRead _ => true
  | Idle | AwaitFull => false
  end.

Definition is_Click_generate (e : event) : bool :=
  match e with Click_generate => true | _ => false end.

(** The retrieval of [getFullContract] settles. *)
Definition settles_full (e : event) : bool :=
  match e with
  | Full_failed _ | Full_not_ok _ | Full_ok _ => true
  | _ => false
  end.

Definition is_full_request (r : request) : bool :=
  match r with POST_generate_contract_full _ => true | _ => false end.

(** The body of the retrieval request for [contract_id]. *)
Definition full_request (contract_id : jsstring) : request :=
  POST_generate_contract_full (obj [("contract_id", VStr contract_id)]%string).

(** The [formData] of a form holding [text] and [type]. *)
Definition form_data (type : ContractType) (text : jsstring) : value :=
  obj [("business_context", obj [("description", VStr (trim text))]);
       ("contract_type", VStr (ContractType_value type))]%string.

(** A retrieved contract that has the fields of one of the two declared
    types, the state type [ContractData] or the response type
    [ContractGenerationResponse], and no others. *)
Definition declared_contract (data : value) : Prop :=
  only_declared_fields ContractData data \/
  only_declared_fields ContractGenerationResponse data.

(** The body of a download request, as sent, when [contractData] has no
    [businessContext]. *)
Definition download_body (contractType : value) : value :=
  JSON_stringify
    (obj [("contractType", contractType);
          ("customSections", VArr []);
          ("language", VStr (js "en"));
          ("jurisdiction", VStr [])]%string).

(** The first terminal line, if there is one. *)
Definition first_terminal (lines : list jsstring) : option jsstring :=
  find is_terminal lines.

(** [for_lines] in one step: the payloads before the first terminal line
    are shown, then the terminal line decides. *)
Definition after_lines (lines : list jsstring) (content : jsstring)
    (m : machine) : machine :=
  let m1 :=
    setStreamingContent (content ++ payloads (before_terminal lines)) m in
  match first_terminal lines with
  | None => suspend (AwaitRead (content ++ payloads lines)) m1
  | Some line =>
      if is_sentinel line then getFullContract (split_eq_1 line) m1
      else catch_finally (Error (payload line)) m1
  end.

End Protocol.

(** ** Concrete sessions *)

Module Scenarios.

Import ContractGenerator.

(** The form is filled in, the request is sent and the response arrives. *)
Definition session_start : list event :=
  [Type_description (js "A SaaS company"); Click_generate; Response_ok].

(** A session that streamed one fragment and then the sentinel line
    [[END_OF_DOC=abc123]]. *)
Definition sentinel_session : list event :=
  session_start ++
  [Read_chunk (js "data: Hello"); Read_chunk (js "[END_OF_DOC=abc123]")].

(** A retrieval response of the declared type [ContractGenerationResponse]. *)
Definition sample_response : value :=
  obj [("contract_id", VStr (js "abc123"));
       ("contract_type", VStr (js "terms_of_service"));
       ("sections", VArr []);
       ("total_sections", VNum 12);
       ("estimated_pages", VNum 5);
       ("generation_time", VNum (7 # 2));
       ("model_used", VStr (js "openai/gpt-4o-mini"))]%string.

(** A value of the type [ContractData] the generator declares for its
    state. *)
Definition sample_contract_data : value :=
  obj [("contractId", VStr (js "abc123"));
       ("contractType", VStr (js "terms_of_service"));
       ("sections", VArr []);
       ("totalSections", VNum 12);
       ("estimatedPages", VNum 5);
       ("generationTime", VNum (7 # 2));
       ("modelUsed", VStr (js "openai/gpt-4o-mini"));
       ("htmlContent", VStr (js "<h1>Terms</h1>"))]%string.

(** The user presses Stop while the retrieval is in flight, and the
    retrieval then succeeds. *)
Definition stop_during_retrieval : list event :=
  [Click_stop; Full_ok sample_response].

(** A data line whose payload starts with "Error:" and which holds the
    sentinel marker. *)
Definition error_line_with_marker : jsstring :=
  js "data: Error: upstream failed [END_OF_DOC=7]".

(** A whole session, then a click on Download. *)
Definition download_session : list event :=
  sentinel_session ++ [Full_ok sample_response; Click_download].

End Scenarios.

(** ** [ContractForm.tsx], the button *)

Module ContractFormView.

(** The button under the form, lines 155-178: Generate, possibly disabled,
    or Stop. *)
Inductive button : Type :=
| Generate (disabled : bool)
| Stop.

Definition form_button (st : ContractForm.state) (isGenerating : bool) : button :=
  if negb isGenerating then
    Generate (negb (nonempty (trim (ContractForm.businessDescription st))))
  else Stop.

End ContractFormView.

(** ** [ContractGenerator.tsx], the right column *)

Module RightColumn.

Import ContractGenerator.

(** What [{v && element}] puts on the page. *)
Inductive slot (A : Type) : Type :=
| Nothing
| Text (v : value)
| Element (a : A).

Arguments Nothing {A}.
Arguments Text {A} v.
Arguments Element {A} a.

(** [{v && element}] as React draws it: the element when [v] is truthy;
    otherwise [v] itself, which is drawn as text when it is a number (0)
    and not drawn when it is null, undefined, false or the empty string. *)
Definition guarded {A : Type} (v : value) (a : A) : slot A :=
  if truthy v then Element a
  else match v with
       | VNum _ => Text v
       | _ => Nothing
       end.

(** What the right column holds, lines 218-276. *)
Record column : Type := {
  download_button : slot unit;
  error_banner : option jsstring;
  spinner : bool;
  streaming_display : option display_props;
  finished_display : slot display_props;
  placeholder : bool
}.

Definition right_column (m : machine) : column :=
  {| download_button := guarded (contractData m) tt;
     error_banner :=
       match error m with
       | Some e => if nonempty e then Some e else None
       | None => None
       end;
     spinner := isGenerating m;
     streaming_display :=
       if nonempty (streamingContent m) && negb (truthy (contractData m)) then
         Some {| content := VStr (streamingContent m);
                 isStreaming := isGenerating m;
                 metadata := VUndefined |}
       else None;
     finished_display :=
       guarded (contractData m)
         {| content := get "htmlContent" (contractData m);
            isStreaming := false;
            metadata := contractData m |};
     placeholder :=
       negb (isGenerating m) && negb (nonempty (streamingContent m)) &&
       negb (truthy (contractData m)) |}.

End RightColumn.

(** ** More vocabulary *)

Module Sessions.

Import ContractGenerator Protocol.

(** [pieces.join(sep)] for a separator of one code unit. *)
Fixpoint join (sep : code_unit) (pieces : list jsstring) : jsstring :=
  match pieces with
  | [] => []
  | piece :: rest =>
      match rest with
      | [] => piece
      | _ :: _ => piece ++ sep :: join sep rest
      end
  end.



(** Some chunk that was read had a line with the sentinel marker. *)
Definition sentinel_received (evs : list event) : Prop :=
  exists chunk line,
    Read_chunk chunk ∈ evs /\ line ∈ split 10 chunk /\ is_sentinel line = true.


Definition is_Type_description (e : event) : bool :=
  match e with Type_description _ => true | _ => false end.

(** The values that have a [replace] method: strings. *)
Definition is_string (v : value) : bool :=
  match v with VStr _ => true | _ => false end.

(** The truthy values without an [includes] method. *)
Definition lacks_includes (v : value) : bool :=
  match v with
  | VBool true | VObj _ => true
  | VNum q => negb (Qeq_bool q 0)
  | _ => false
  end.

(** A promise of a call of [handleGenerateContract] settles. *)
Definition is_settlement (e : event) : bool :=
  match e with
  | Fetch_failed _ | Response_not_ok | Response_without_body | Response_ok
  | Error_body_thrown _ | Read_chunk _ | Read_done | Read_failed _
  | Full_failed _ | Full_not_ok _ | Full_ok _ => true
  | _ => false
  end.

(** The body of a download request made with [data] stored. *)
Definition download_body_of (data : value) : value :=
  JSON_stringify
    (obj [("businessContext", get "businessContext" data);
          ("contractType", get "contractType" data);
          ("customSections", VArr []);
          ("language", VStr (js "en"));
          ("jurisdiction", VStr [])]%string).

(** The download body for a contract of the declared response type. *)
Definition bare_download_body : value :=
  obj [("customSections", VArr []);
       ("language", VStr (js "en"));
       ("jurisdiction", VStr [])]%string.

End Sessions.

(** ** The stream as it is sent *)

Module Wire.

Import ContractGenerator Sessions.

(** [s] without [prefix], when [s] is [prefix] followed by something. *)
Fixpoint strip (prefix s : jsstring) : option jsstring :=
  match prefix with
  | [] => Some s
  | b :: prefix' =>
      match s with
      | [] => None
      | a :: s' => if N.eqb a b then strip prefix' s' else None
      end
  end.

Definition starts (prefix s : jsstring) : bool :=
  match strip prefix s with Some _ => true | None => false end.

(** [s], [s] without its first code unit, and so on down to the empty
    string. *)
Fixpoint suffixes (s : jsstring) : list jsstring :=
  s :: match s with
       | [] => []
       | _ :: s' => suffixes s'
       end.

(** The piece holds the text [[END_OF_DOC=] somewhere. *)
Definition has_marker (piece : jsstring) : bool :=
  existsb (starts (js "[END_OF_DOC=")) (suffixes piece).

(** The text that follows "data: " in a piece that starts with it. *)
Definition data_payload (piece : jsstring) : option jsstring :=
  strip (js "data: ") piece.

(** A data piece whose payload starts with "Error:". *)
Definition is_error_piece (piece : jsstring) : bool :=
  match data_payload piece with
  | Some p => starts (js "Error:") p
  | None => false
  end.

(** A piece that ends the reading. *)
Definition ends_reading (piece : jsstring) : bool :=
  has_marker piece || is_error_piece piece.

(** The payloads of the data pieces before the first piece that ends the
    reading, one after the other. *)
Fixpoint shown_text (pieces : list jsstring) : jsstring :=
  match pieces with
  | [] => []
  | piece :: rest =>
      if ends_reading piece then []
      else match data_payload piece with
           | Some p => p ++ shown_text rest
           | None => shown_text rest
           end
  end.

(** Chunks given by the pieces between their line feeds: each chunk has
    at least one piece and no piece holds a line feed. *)
Definition well_cut (cut : list (list jsstring)) : Prop :=
  Forall (fun pieces =>
            pieces <> [] /\ Forall (fun piece => 10 ∉ piece) pieces) cut.

(** The chunks themselves: the pieces of each joined by line feeds. *)
Definition chunks_of (cut : list (list jsstring)) : list jsstring :=
  join 10 <$> cut.

End Wire.

(** ** More concrete sessions *)

Module MoreScenarios.

Import ContractGenerator Scenarios.

(** A stream of two chunks without a terminal line. *)
Definition plain_chunks : list jsstring :=
  [js "data: Hel" ++ 10 :: js "data: lo"; js "data: , world"].

(** A retrieval answer of the declared response type to which the server
    added the business context. *)
Definition answer_with_businessContext : value :=
  obj [("contract_id", VStr (js "abc123"));
       ("contract_type", VStr (js "terms_of_service"));
       ("sections", VArr []);
       ("total_sections", VNum 12);
       ("estimated_pages", VNum 5);
       ("generation_time", VNum (7 # 2));
       ("model_used", VStr (js "openai/gpt-4o-mini"));
       ("businessContext",
        obj [("description", VStr (js "A SaaS company"))])]%string.

End MoreScenarios.

(** * Properties *)

(** Closed decidable facts, by evaluation. *)
Ltac by_computation := apply (bool_decide_unpack _); vm_compute; reflexivity.

(** ** Strings *)

Section StringFacts.

Import Protocol.

Implicit Types (s p a b : jsstring) (c sep : code_unit).

Lemma unit_eqb_eq c1 c2 : unit_eqb c1 c2 = true <-> c1 = c2.
Proof. apply N.eqb_eq. Qed.

Lemma unit_eqb_neq c1 c2 : unit_eqb c1 c2 = false <-> c1 <> c2.
Proof. apply N.eqb_neq. Qed.

Lemma startsWith_spec s p : startsWith s p = true <-> exists t, s = p ++ t.
Proof.
  revert s. induction p as [|b p IH]; intros s; simpl.
  - split; [intros _; by exists s | intros _; reflexivity].
  - destruct s as [|a s]; simpl.
    + split; [done | intros [t Ht]; discriminate].
    + rewrite andb_true_iff, unit_eqb_eq, IH. split.
      * intros [-> [t ->]]. by exists t.
      * intros [t Ht]. injection Ht as -> ->. eauto.
Qed.

Lemma includes_spec s p :
  includes s p = true <-> exists a b, s = a ++ p ++ b.
Proof.
  induction s as [|c s IH]; simpl.
  - rewrite orb_false_r, startsWith_spec. split.
    + intros [t Ht]. by exists [], t.
    + intros (a & b & Hab). destruct a; [by exists b|discriminate].
  - rewrite orb_true_iff, startsWith_spec, IH. split.
    + intros [[t Ht] | (a & b & ->)].
      * by exists [], t.
      * by exists (c :: a), b.
    + intros (a & b & Hab). destruct a as [|c' a]; simpl in Hab.
      * left. by exists b.
      * right. injection Hab as -> ->. by exists a, b.
Qed.

Lemma split_head sep s : exists ws, split sep s = until sep s :: ws.
Proof.
  induction s as [|c s [ws IH]]; simpl; [by exists []|].
  destruct (unit_eqb c sep); [by eexists|].
  rewrite IH. by eexists.
Qed.

Lemma split_at_first sep a b :
  sep ∉ a -> split sep (a ++ sep :: b) = a :: split sep b.
Proof.
  induction a as [|c a IH]; intros Hna; simpl.
  - by rewrite (proj2 (unit_eqb_eq sep sep)).
  - apply not_elem_of_cons in Hna as [Hc Ha].
    rewrite (proj2 (unit_eqb_neq c sep)) by congruence.
    by rewrite IH.
Qed.

Lemma until_absent sep s : sep ∉ s -> until sep s = s.
Proof.
  induction s as [|c s IH]; intros Hn; simpl; [done|].
  apply not_elem_of_cons in Hn as [Hc Hs].
  rewrite (proj2 (unit_eqb_neq c sep)) by congruence.
  by rewrite IH.
Qed.

Lemma split_absent sep s : sep ∉ s -> split sep s = [s].
Proof.
  induction s as [|c s IH]; intros Hn; simpl; [done|].
  apply not_elem_of_cons in Hn as [Hc Hs].
  rewrite (proj2 (unit_eqb_neq c sep)) by congruence.
  by rewrite IH.
Qed.

End StringFacts.

(** ** Trimming *)

Section TrimFacts.

Import Protocol.

Implicit Types (s t l r : jsstring) (a : code_unit).

Lemma whitespace_only_app l r :
  whitespace_only (l ++ r) = whitespace_only l && whitespace_only r.
Proof. apply forallb_app. Qed.

Lemma whitespace_only_rev l : whitespace_only (rev l) = whitespace_only l.
Proof.
  induction l as [|a l IH]; simpl; [done|].
  rewrite whitespace_only_app, IH. simpl.
  rewrite andb_true_r. apply andb_comm.
Qed.

Lemma trimStart_split s :
  exists l, s = l ++ trimStart s /\ whitespace_only l = true.
Proof.
  induction s as [|a s (l & Hl & Hw)]; simpl; [by exists []|].
  destruct (is_whitespace a) eqn:Ha.
  - exists (a :: l). simpl. rewrite Ha, Hw. by rewrite Hl at 1.
  - by exists [].
Qed.

Lemma trimStart_head s a t : trimStart s = a :: t -> is_whitespace a = false.
Proof.
  induction s as [|b s IH]; simpl; [done|].
  destruct (is_whitespace b) eqn:Hb; [done|].
  by intros [= -> _].
Qed.

Lemma trimEnd_split s :
  exists r, s = trimEnd s ++ r /\ whitespace_only r = true.
Proof.
  destruct (trimStart_split (rev s)) as (l & Hl & Hw).
  exists (rev l). split.
  - unfold trimEnd. rewrite <- rev_app_distr, <- Hl. by rewrite rev_involutive.
  - by rewrite whitespace_only_rev.
Qed.

Lemma trimEnd_last s t a : trimEnd s = t ++ [a] -> is_whitespace a = false.
Proof.
  unfold trimEnd. intros H.
  apply (f_equal (@rev _)) in H.
  rewrite rev_involutive, rev_app_distr in H. simpl in H.
  by eapply trimStart_head.
Qed.

(** [trim] takes whitespace, and nothing else, off both ends. *)
Lemma trim_split s :
  exists l r, s = l ++ trim s ++ r /\
              whitespace_only l = true /\ whitespace_only r = true.
Proof.
  destruct (trimStart_split s) as (l & Hl & Hwl).
  destruct (trimEnd_split (trimStart s)) as (r & Hr & Hwr).
  exists l, r. unfold trim. by rewrite <- Hr.
Qed.

Lemma trim_head s a t : trim s = a :: t -> is_whitespace a = false.
Proof.
  intros H. destruct (trimEnd_split (trimStart s)) as (r & Hr & _).
  fold (trim s) in Hr. rewrite H in Hr. simpl in Hr.
  by eapply trimStart_head.
Qed.

Lemma trim_last s t a : trim s = t ++ [a] -> is_whitespace a = false.
Proof. apply trimEnd_last. Qed.

Lemma trim_nonempty_not_blank s :
  nonempty (trim s) = true ->
  whitespace_only (trim s) = false /\ whitespace_only s = false.
Proof.
  destruct (trim s) as [|a t] eqn:H; [done|]. intros _.
  pose proof (trim_head _ _ _ H) as Ha.
  destruct (trim_split s) as (l & r & Hs & _ & _).
  rewrite H in Hs. split.
  - simpl. by rewrite Ha.
  - rewrite Hs, whitespace_only_app. simpl. rewrite Ha. apply andb_false_r.
Qed.

Lemma trim_blank s : whitespace_only s = true -> trim s = [].
Proof.
  intros Hw. destruct (trim s) as [|a t] eqn:H; [done|].
  destruct (trim_nonempty_not_blank s) as [_ Hn]; [by rewrite H|].
  congruence.
Qed.

End TrimFacts.

(** ** The line loop *)

Section LoopFacts.

Import ContractGenerator Protocol.

Lemma setStreamingContent_same m :
  setStreamingContent (streamingContent m) m = m.
Proof. by destruct m. Qed.

Lemma is_terminal_cases line :
  is_terminal line = false ->
  includes line END_OF_DOC = false /\
  (startsWith line (js "data: ") = true ->
   startsWith (slice 6 line) (js "Error:") = false).
Proof.
  unfold is_terminal, is_sentinel, is_error, is_data, payload.
  intros [Hs He]%orb_false_iff. split; [done|].
  intros Hd. by rewrite Hd in He.
Qed.

(** The loop does what [after_lines] says. *)
Lemma for_lines_after_lines lines content m :
  streamingContent m = content ->
  for_lines lines content m = after_lines lines content m.
Proof.
  revert content m.
  induction lines as [|line rest IH]; intros content m Hc.
  - unfold after_lines; cbn.
    by rewrite app_nil_r, <- Hc, setStreamingContent_same.
  - unfold after_lines, first_terminal.
    cbn [for_lines find before_terminal].
    destruct (is_terminal line) eqn:Ht.
    + cbn [payloads]. rewrite app_nil_r, <- Hc, setStreamingContent_same.
      unfold is_sentinel.
      destruct (includes line END_OF_DOC) eqn:Hs; [done|].
      unfold is_terminal, is_sentinel in Ht. rewrite Hs in Ht.
      unfold is_error, is_data, payload in Ht.
      apply andb_true_iff in Ht as [Hd He]. by rewrite Hd, He.
    + destruct (is_terminal_cases _ Ht) as [Hs He]. rewrite Hs.
      cbn [payloads]. unfold is_data, payload.
      destruct (startsWith line (js "data: ")) eqn:Hd.
      * rewrite (He eq_refl), IH by done.
        unfold after_lines, first_terminal.
        by rewrite !app_assoc.
      * by rewrite IH.
Qed.

Lemma before_terminal_none lines :
  first_terminal lines = None -> before_terminal lines = lines.
Proof.
  unfold first_terminal.
  induction lines as [|line rest IH]; cbn; [done|].
  destruct (is_terminal line); [done|]. intros H. by rewrite IH.
Qed.

(** The lines before a terminal line that no terminal line precedes. *)
Lemma terminal_found pre line post :
  forallb (fun l => negb (is_terminal l)) pre = true ->
  is_terminal line = true ->
  first_terminal (pre ++ line :: post) = Some line /\
  before_terminal (pre ++ line :: post) = pre.
Proof.
  unfold first_terminal. intros Hpre Hline.
  induction pre as [|l pre IH]; cbn.
  - by rewrite Hline.
  - cbn in Hpre. apply andb_true_iff in Hpre as [Hl Hpre].
    apply negb_true_iff in Hl. rewrite Hl.
    destruct (IH Hpre) as [-> ->]. done.
Qed.

End LoopFacts.

(** ** The transition system *)

Section MachineFacts.

Import ContractGenerator Protocol.

Lemma run_snoc evs e m : run (evs ++ [e]) m = step (run evs m) e.
Proof. unfold run. by rewrite fold_left_app. Qed.

Lemma run_app evs1 evs2 m : run (evs1 ++ evs2) m = run evs2 (run evs1 m).
Proof. unfold run. by rewrite fold_left_app. Qed.

(** A promise of a call that has returned does not settle. *)
Lemma settle_idle m e : at_await m = Idle -> settle m e = m.
Proof. intros Hp. unfold settle. rewrite Hp. by destruct e. Qed.

Lemma step_read_chunk m chunk content :
  at_await m = AwaitRead content ->
  step m (Read_chunk chunk) = for_lines (split 10 chunk) content m.
Proof. intros Hp. cbn. unfold settle. by rewrite Hp. Qed.

End MachineFacts.

(** ** Reading a stream of chunks *)

Section ReadingFacts.

Import ContractGenerator Protocol.




(** Once the reading has ended, the chunks that follow are not read. *)
Lemma chunks_not_read chunks m :
  (forall content, at_await m <> AwaitRead content) ->
  run (Read_chunk <$> chunks) m = m.
Proof.
  intros Hp. induction chunks as [|c chunks IH]; [done|].
  change (run (Read_chunk <$> c :: chunks) m)
    with (run (Read_chunk <$> chunks) (step m (Read_chunk c))).
  replace (step m (Read_chunk c)) with m; [exact IH|].
  cbn. unfold settle. destruct (at_await m) as [| | |content0|] eqn:Hm; try done.
  by destruct (Hp content0).
Qed.


Lemma suspend_same m content :
  at_await m = AwaitRead content -> suspend (AwaitRead content) m = m.
Proof. destruct m; cbn. by intros ->. Qed.

(** The loop overwrites the await point it starts from. *)
Lemma for_lines_suspend lines : forall content p m,
  for_lines lines content (suspend p m) = for_lines lines content m.
Proof.
  induction lines as [|line rest IH]; intros content p m; cbn [for_lines];
    [done|].
  destruct (includes line END_OF_DOC); [done|].
  destruct (startsWith line (js "data: ")); [|apply IH].
  destruct (startsWith (slice 6 line) (js "Error:")); [done|].
  apply (IH _ p (setStreamingContent _ m)).
Qed.

Lemma for_lines_app_none lines1 lines2 : forall content m,
  first_terminal lines1 = None ->
  for_lines (lines1 ++ lines2) content m =
  for_lines lines2 (content ++ payloads lines1) (for_lines lines1 content m).
Proof.
  unfold first_terminal.
  induction lines1 as [|line rest IH]; intros content m Hnone.
  - cbn. by rewrite app_nil_r, for_lines_suspend.
  - cbn [find] in Hnone. destruct (is_terminal line) eqn:Ht; [done|].
    destruct (is_terminal_cases _ Ht) as [Hs He].
    cbn [app for_lines payloads]. rewrite Hs. unfold is_data, payload.
    destruct (startsWith line (js "data: ")) eqn:Hd.
    + rewrite (He eq_refl), IH by done. by rewrite app_assoc.
    + by rewrite IH.
Qed.

Lemma for_lines_app_some lines1 lines2 line : forall content m,
  first_terminal lines1 = Some line ->
  for_lines (lines1 ++ lines2) content m = for_lines lines1 content m.
Proof.
  unfold first_terminal.
  induction lines1 as [|l rest IH]; intros content m Hsome; [done|].
  cbn [find] in Hsome. cbn [app for_lines].
  destruct (includes l END_OF_DOC) eqn:Hs; [done|].
  destruct (startsWith l (js "data: ")) eqn:Hd.
  - destruct (startsWith (slice 6 l) (js "Error:")) eqn:He; [done|].
    assert (is_terminal l = false) as Ht.
    { unfold is_terminal, is_sentinel, is_error, is_data, payload.
      by rewrite Hs, Hd, He. }
    rewrite Ht in Hsome. by apply IH.
  - assert (is_terminal l = false) as Ht.
    { unfold is_terminal, is_sentinel, is_error, is_data. by rewrite Hs, Hd. }
    rewrite Ht in Hsome. by apply IH.
Qed.

Lemma for_lines_await_none lines : forall content m,
  first_terminal lines = None ->
  at_await (for_lines lines content m) = AwaitRead (content ++ payloads lines).
Proof.
  unfold first_terminal.
  induction lines as [|line rest IH]; intros content m Hnone.
  - cbn. by rewrite app_nil_r.
  - cbn [find] in Hnone. destruct (is_terminal line) eqn:Ht; [done|].
    destruct (is_terminal_cases _ Ht) as [Hs He].
    cbn [for_lines payloads]. rewrite Hs. unfold is_data, payload.
    destruct (startsWith line (js "data: ")) eqn:Hd.
    + rewrite (He eq_refl), IH by done. by rewrite app_assoc.
    + by apply IH.
Qed.

Lemma for_lines_await_some lines line : forall content m,
  first_terminal lines = Some line ->
  forall content', at_await (for_lines lines content m) <> AwaitRead content'.
Proof.
  unfold first_terminal.
  induction lines as [|l rest IH]; intros content m Hsome content'; [done|].
  cbn [find] in Hsome. cbn [for_lines].
  destruct (includes l END_OF_DOC) eqn:Hs; [done|].
  destruct (startsWith l (js "data: ")) eqn:Hd.
  - destruct (startsWith (slice 6 l) (js "Error:")) eqn:He; [done|].
    assert (is_terminal l = false) as Ht.
    { unfold is_terminal, is_sentinel, is_error, is_data, payload.
      by rewrite Hs, Hd, He. }
    rewrite Ht in Hsome. by apply IH.
  - assert (is_terminal l = false) as Ht.
    { unfold is_terminal, is_sentinel, is_error, is_data. by rewrite Hs, Hd. }
    rewrite Ht in Hsome. by apply IH.
Qed.

(** Reading chunk after chunk is running the loop once over all their
    lines. *)
Lemma read_chunks_as_lines chunks : forall m content,
  at_await m = AwaitRead content ->
  run (Read_chunk <$> chunks) m = for_lines (lines_of chunks) content m.
Proof.
  induction chunks as [|c chunks IH]; intros m content Hp.
  - cbn. by rewrite suspend_same.
  - change (run (Read_chunk <$> c :: chunks) m)
      with (run (Read_chunk <$> chunks) (step m (Read_chunk c))).
    change (lines_of (c :: chunks)) with (split 10 c ++ lines_of chunks).
    rewrite (step_read_chunk _ _ _ Hp).
    destruct (first_terminal (split 10 c)) as [line|] eqn:Hf.
    + rewrite (for_lines_app_some _ _ _ _ _ Hf).
      apply chunks_not_read. by eapply for_lines_await_some.
    + rewrite (for_lines_app_none _ _ _ _ Hf).
      apply IH. by apply for_lines_await_none.
Qed.

(** A session from its start, read chunk after chunk. *)
Lemma session_as_lines m formData chunks :
  run (Response_ok :: (Read_chunk <$> chunks))
    (handleGenerateContract formData m)
  = after_lines (lines_of chunks) [] (handleGenerateContract formData m).
Proof.
  change (run (Response_ok :: (Read_chunk <$> chunks))
            (handleGenerateContract formData m))
    with (run (Read_chunk <$> chunks)
            (suspend (AwaitRead []) (handleGenerateContract formData m))).
  rewrite (read_chunks_as_lines chunks _ []) by done.
  rewrite for_lines_suspend. by apply for_lines_after_lines.
Qed.

End ReadingFacts.

(** ** The pieces of the stream *)

Section WireFacts.

Import ContractGenerator Protocol Sessions Wire.

Lemma strip_spec prefix : forall s t,
  strip prefix s = Some t <-> s = prefix ++ t.
Proof.
  induction prefix as [|b prefix IH]; intros s t; cbn.
  - split; [by intros [= ->]|by intros ->].
  - destruct s as [|a s]; [done|].
    destruct (N.eqb_spec a b) as [->|Hne].
    + rewrite IH. split; [by intros ->|by intros [= ->]].
    + split; [done|]. intros [= ? ?]. congruence.
Qed.

Lemma starts_startsWith prefix s : starts prefix s = startsWith s prefix.
Proof.
  unfold starts. destruct (strip prefix s) as [t|] eqn:Hs.
  - apply strip_spec in Hs as ->. symmetry. apply startsWith_spec. by exists t.
  - destruct (startsWith s prefix) eqn:Hw; [|done].
    apply startsWith_spec in Hw as [t ->].
    by rewrite (proj2 (strip_spec prefix (prefix ++ t) t) eq_refl) in Hs.
Qed.

Lemma has_marker_includes piece : has_marker piece = includes piece END_OF_DOC.
Proof.
  unfold has_marker.
  induction piece as [|a piece IH]; cbn [suffixes existsb includes].
  - by rewrite starts_startsWith.
  - by rewrite starts_startsWith, IH.
Qed.

Lemma data_payload_some piece p :
  data_payload piece = Some p -> is_data piece = true /\ payload piece = p.
Proof.
  unfold data_payload. intros ->%strip_spec. split.
  - apply startsWith_spec. by exists p.
  - reflexivity.
Qed.

Lemma data_payload_none piece :
  data_payload piece = None -> is_data piece = false.
Proof.
  unfold data_payload, is_data. intros Hn.
  pose proof (starts_startsWith (js "data: ") piece) as Hs.
  unfold starts in Hs. by rewrite Hn in Hs.
Qed.

Lemma ends_reading_terminal piece : ends_reading piece = is_terminal piece.
Proof.
  unfold ends_reading, is_terminal, is_sentinel, is_error, is_error_piece.
  rewrite has_marker_includes. f_equal.
  destruct (data_payload piece) as [p|] eqn:Hp.
  - apply data_payload_some in Hp as [-> ->]. apply starts_startsWith.
  - by rewrite (data_payload_none _ Hp).
Qed.

Lemma shown_text_payloads pieces :
  shown_text pieces = payloads (before_terminal pieces).
Proof.
  induction pieces as [|piece rest IH]; cbn [shown_text before_terminal];
    [done|].
  rewrite ends_reading_terminal. destruct (is_terminal piece); [done|].
  cbn [payloads]. destruct (data_payload piece) as [p|] eqn:Hp.
  - apply data_payload_some in Hp as [-> ->]. by rewrite IH.
  - by rewrite (data_payload_none _ Hp).
Qed.

(** Cutting at the line feeds what was joined by them gives the pieces
    back. *)
Lemma split_join pieces :
  pieces <> [] -> Forall (fun piece => 10 ∉ piece) pieces ->
  split 10 (join 10 pieces) = pieces.
Proof.
  induction pieces as [|piece rest IH]; [done|]. intros _ Hall.
  apply Forall_cons in Hall as [Hp Hrest]. cbn [join].
  destruct rest as [|piece' rest'].
  - by apply split_absent.
  - rewrite split_at_first by done. by rewrite IH.
Qed.

Lemma lines_of_chunks_of cut : well_cut cut -> lines_of (chunks_of cut) = concat cut.
Proof.
  unfold well_cut, lines_of, chunks_of.
  induction cut as [|pieces cut IH]; [done|].
  intros [[Hne Hp] Hcut]%Forall_cons. cbn.
  rewrite split_join by done. f_equal. by apply IH.
Qed.

End WireFacts.

(** ** The sentinel *)

Section SentinelFacts.

Import ContractGenerator Protocol.

Lemma split_first sep s :
  sep ∈ s ->
  split sep s = until sep s :: split sep (after_first sep s).
Proof.
  induction s as [|c s IH]; [by intros ?%elem_of_nil|].
  intros Hin. cbn. destruct (unit_eqb c sep) eqn:Hc; [done|].
  apply unit_eqb_neq in Hc.
  apply elem_of_cons in Hin as [?|Hin]; [congruence|].
  by rewrite (IH Hin).
Qed.

(** [line.split("=")[1]] is the text between the first equals sign of the
    line and its next one, or the end of the line. *)
Lemma split_eq_1_spec line :
  61 ∈ line -> split_eq_1 line = VStr (until 61 (after_first 61 line)).
Proof.
  intros Hin. unfold split_eq_1. rewrite (split_first _ _ Hin).
  destruct (split_head 61 (after_first 61 line)) as [ws ->]. done.
Qed.

Lemma sentinel_has_eq line : includes line END_OF_DOC = true -> 61 ∈ line.
Proof.
  intros (a & b & ->)%includes_spec.
  apply elem_of_app; right. apply elem_of_app; left.
  by_computation.
Qed.

Lemma stringify_contract_id s :
  POST_generate_contract_full
    (JSON_stringify (obj [("contract_id", VStr s)]%string)) = full_request s.
Proof. reflexivity. Qed.

(** A sentinel line written as the spec gives it sends the identifier with
    the closing bracket. *)
Lemma sentinel_line_sends_bracket contract_id :
  61 ∉ contract_id ->
  split_eq_1 (END_OF_DOC ++ contract_id ++ js "]") = VStr (contract_id ++ js "]").
Proof.
  intros Hn.
  change (END_OF_DOC ++ contract_id ++ js "]")
    with (js "[END_OF_DOC" ++ 61 :: (contract_id ++ js "]")).
  unfold split_eq_1. rewrite split_at_first.
  - destruct (split_head 61 (contract_id ++ js "]")) as [ws ->]. cbn.
    rewrite until_absent; [done|].
    intros [?|Hin]%elem_of_app; [done|]. revert Hin. by_computation.
  - by_computation.
Qed.

End SentinelFacts.

(** ** The streaming session: claims C1, C2 and C9 *)

Section StreamClaims.

Import ContractGenerator Protocol Scenarios Sessions Wire.

(** C1, evaluated on the code. On the sentinel line [[END_OF_DOC=abc123]] the
    client stops reading and sends exactly one retrieval request, but the
    contract_id it sends is [abc123]] with the closing bracket, not the
    identifier [abc123] between the equals sign and the bracket. *)
Theorem C1_sentinel_id_keeps_closing_bracket :
  let m := run sentinel_session initial in
  at_await m = AwaitFull /\
  filter (fun r => is_full_request r = true) (requests m)
    = [full_request (js "abc123]")] /\
  full_request (js "abc123]") <> full_request (js "abc123").
Proof.
  cbn zeta. split; [reflexivity|]. split; [reflexivity|].
  intros H. apply (f_equal (fun r =>
    match r with
    | POST_generate_contract_full b => get "contract_id" b
    | _ => VUndefined
    end)) in H.
  vm_compute in H. discriminate H.
Qed.




(** C9, the claim as stated fails: on [[END_OF_DOC=a=b]] the text after the
    first equals sign is [a=b]], and the client asks for [a]. *)
Lemma C9_counterexample :
  let line := js "[END_OF_DOC=a=b]" in
  let m := run (session_start ++ [Read_chunk line]) initial in
  includes line END_OF_DOC = true /\
  after_first 61 line = js "a=b]" /\
  filter (fun r => is_full_request r = true) (requests m)
    = [full_request (js "a")] /\
  js "a" <> js "a=b]".
Proof. cbn zeta. repeat split; try reflexivity. discriminate. Qed.

(** C9, amended. The sentinel is looked for as a substring before the line
    is parsed as data: any line that contains [[END_OF_DOC=], whatever its
    prefix, ends the reading without adding to the streamed content and
    sends one retrieval request for the text between the first equals sign
    of the line and the next one (or the end of the line); when that
    request settles the session is over. *)
Theorem C9_sentinel_is_substring_match (m : machine) (content : jsstring)
    (line : jsstring) (rest : list jsstring) :
  includes line END_OF_DOC = true ->
  let m' := for_lines (line :: rest) content m in
  requests m' = requests m ++ [full_request (until 61 (after_first 61 line))] /\
  streamingContent m' = streamingContent m /\
  at_await m' = AwaitFull /\
  forall e, settles_full e = true ->
            at_await (step m' e) = Idle /\ isGenerating (step m' e) = false.
Proof.
  intros Hs. cbn zeta. cbn [for_lines]. rewrite Hs.
  rewrite (split_eq_1_spec _ (sentinel_has_eq _ Hs)).
  unfold getFullContract. rewrite stringify_contract_id.
  repeat split; try reflexivity; by destruct e.
Qed.

Lemma C9_sentinel_is_substring_match_witness :
  let line := js "data: see [END_OF_DOC=42]" in
  let m' := for_lines [line] [] initial in
  includes line END_OF_DOC = true /\
  requests m' = [full_request (js "42]")] /\
  streamingContent m' = [] /\
  at_await m' = AwaitFull.
Proof.
  cbn zeta.
  pose proof (C9_sentinel_is_substring_match initial []
                (js "data: see [END_OF_DOC=42]") [] eq_refl) as (H1 & H2 & H3 & _).
  split; [reflexivity|]. split; [exact H1|]. split; [exact H2|exact H3].
Defined.

End StreamClaims.

(** ** Errors and cancellation: claims C3 and C4 *)

Section EndOfSession.

Import ContractGenerator Protocol Scenarios Sessions Wire.

Lemma no_ending_piece pre :
  Forall (fun piece => ends_reading piece = false) pre ->
  forallb (fun l => negb (is_terminal l)) pre = true.
Proof.
  induction 1 as [|piece pre Hp _ IH]; [done|]. cbn.
  by rewrite <- ends_reading_terminal, Hp.
Qed.

Lemma shown_text_all pre :
  forallb (fun l => negb (is_terminal l)) pre = true ->
  shown_text pre = payloads pre.
Proof.
  intros Hpre. rewrite shown_text_payloads. f_equal.
  induction pre as [|l pre IH]; [done|]. cbn in *.
  apply andb_true_iff in Hpre as [Hl Hpre]. apply negb_true_iff in Hl.
  by rewrite Hl, IH.
Qed.

(** C3, the claim as stated fails: a data line whose payload starts with
    "Error:" but which contains the sentinel marker is taken for the
    sentinel; no error is set and a retrieval request goes out. *)
Lemma C3_counterexample :
  let m := run (session_start ++ [Read_chunk error_line_with_marker]) initial in
  is_data error_line_with_marker = true /\
  startsWith (payload error_line_with_marker) (js "Error:") = true /\
  error m = None /\
  filter (fun r => is_full_request r = true) (requests m)
    = [full_request (js "7]")].
Proof. cbn zeta. repeat split; reflexivity. Qed.

(** C3, amended. Take a session from its start in which only promises of
    this call settle, its chunks cut into pieces at their line feeds. When
    the first piece that ends the reading is "data: Error:" followed by
    some text and holds no sentinel marker, the session ends with "Error:"
    and that text as the error and generation off; the payload is not
    added to the streamed content, the generation request is the only
    request sent, no contract is stored, and no promise of this call does
    anything afterwards. *)
Theorem C3_error_line_ends_session (m : machine) (formData : value)
    (cut : list (list jsstring)) (pre : list jsstring) (detail : jsstring)
    (post : list jsstring) :
  well_cut cut ->
  concat cut = pre ++ (js "data: " ++ js "Error:" ++ detail) :: post ->
  Forall (fun piece => ends_reading piece = false) pre ->
  has_marker (js "data: " ++ js "Error:" ++ detail) = false ->
  let m' := run (Response_ok :: (Read_chunk <$> chunks_of cut))
              (handleGenerateContract formData m) in
  error m' = Some (js "Error:" ++ detail) /\
  isGenerating m' = false /\ at_await m' = Idle /\
  streamingContent m' = shown_text pre /\
  requests m' =
    requests m ++ [POST_generate_contract (JSON_stringify formData)] /\
  contractData m' = VNull /\
  forall e, is_settlement e = true -> step m' e = m'.
Proof.
  intros Hcut Hlines Hpre Hmarker. cbn zeta.
  set (line := js "data: " ++ js "Error:" ++ detail) in *.
  apply no_ending_piece in Hpre.
  assert (is_sentinel line = false) as Hsent.
  { unfold is_sentinel. by rewrite <- has_marker_includes. }
  assert (is_terminal line = true) as Hterm.
  { unfold is_terminal, is_error, is_data, payload.
    change (slice 6 line) with (js "Error:" ++ detail).
    rewrite (proj2 (startsWith_spec line (js "data: ")))
      by (by exists (js "Error:" ++ detail)).
    rewrite (proj2 (startsWith_spec (js "Error:" ++ detail) (js "Error:")))
      by (by exists detail).
    apply orb_true_r. }
  destruct (terminal_found pre line post Hpre Hterm) as [Hfirst Hbefore].
  rewrite session_as_lines, (lines_of_chunks_of _ Hcut), Hlines.
  unfold after_lines. unfold jsstring, code_unit in *.
  rewrite Hfirst, Hbefore, Hsent.
  rewrite (shown_text_all _ Hpre).
  change (payload line) with (js "Error:" ++ detail).
  cbn. split_and!; try done.
  intros e He. destruct e; try discriminate He; reflexivity.
Qed.

Lemma C3_error_line_ends_session_witness :
  let cut := [[js "data: Hello"];
              [js "data: wor"; js "data: Error: quota exceeded"; js "data: ld"]] in
  let m' := run (Response_ok :: (Read_chunk <$> chunks_of cut))
              (handleGenerateContract VNull initial) in
  well_cut cut /\
  error m' = Some (js "Error: quota exceeded") /\
  streamingContent m' = js "Hellowor" /\
  contractData m' = VNull.
Proof.
  cbn zeta.
  assert (well_cut [[js "data: Hello"];
                    [js "data: wor"; js "data: Error: quota exceeded";
                     js "data: ld"]]) as Hcut.
  { unfold well_cut. repeat (apply Forall_cons; split);
      try apply Forall_nil; try done; by_computation. }
  assert (Forall (fun piece => ends_reading piece = false)
            [js "data: Hello"; js "data: wor"]) as Hpre.
  { repeat (apply Forall_cons; split); try apply Forall_nil; reflexivity. }
  pose proof (C3_error_line_ends_session initial VNull _
                [js "data: Hello"; js "data: wor"] (js " quota exceeded")
                [js "data: ld"] Hcut eq_refl Hpre eq_refl)
    as (H1 & _ & _ & H4 & _ & H6 & _).
  split; [exact Hcut|]. split; [exact H1|]. split; [exact H4|exact H6].
Defined.

Lemma step_settlement m e : is_settlement e = true -> step m e = settle m e.
Proof. by destruct e. Qed.

Lemma same_but_streaming m :
  m = suspend (at_await m) (setStreamingContent (streamingContent m) m).
Proof. by destruct m. Qed.

(** A loop that goes back to reading has only streamed. *)
Lemma for_lines_still_streaming lines : forall content m,
  awaits_stream (at_await (for_lines lines content m)) = true ->
  exists s p, for_lines lines content m = suspend p (setStreamingContent s m).
Proof.
  induction lines as [|line rest IH]; intros content m; cbn [for_lines].
  - intros _. exists (streamingContent m), (AwaitRead content).
    by rewrite setStreamingContent_same.
  - destruct (includes line END_OF_DOC); [done|].
    destruct (startsWith line (js "data: ")); [|by apply IH].
    destruct (startsWith (slice 6 line) (js "Error:")); [done|].
    intros (s & p & ->)%IH. by exists s, p.
Qed.

(** While the stream is awaited, the promises of the call that settle
    change the streamed content and the await point only. *)
Lemma settle_still_streaming m e :
  awaits_stream (at_await (settle m e)) = true ->
  awaits_stream (at_await m) = true /\
  exists s p, settle m e = suspend p (setStreamingContent s m).
Proof.
  assert (exists s p, m = suspend p (setStreamingContent s m)) as Hsame.
  { eexists _, _. apply same_but_streaming. }
  unfold settle.
  destruct e; destruct (at_await m) eqn:Hp; cbn; intros Hs;
    rewrite ?Hp in Hs; try discriminate Hs; (split; [done|]);
    try exact Hsame;
    try (eexists (streamingContent m), _;
         by rewrite setStreamingContent_same).
  by apply for_lines_still_streaming.
Qed.

(** In a session of its own, as long as the stream is awaited, nothing is
    stored, nothing more is sent and the controller is not aborted. *)
Lemma own_session_streaming evs m formData :
  forallb is_settlement evs = true ->
  let m1 := run evs (handleGenerateContract formData m) in
  awaits_stream (at_await m1) = true ->
  isGenerating m1 = true /\ contractData m1 = VNull /\ error m1 = None /\
  abortController m1 = Some false /\ latest m1 = None /\
  requests m1 = requests m ++ [POST_generate_contract (JSON_stringify formData)].
Proof.
  induction evs as [|e evs IH] using rev_ind; [done|].
  rewrite forallb_app. intros [Hevs He]%andb_true_iff. cbn in He.
  rewrite andb_true_r in He. cbn zeta.
  rewrite run_snoc, (step_settlement _ _ He).
  intros (Hs & s & p & ->)%settle_still_streaming.
  cbn. by apply IH.
Qed.

(** C4, the claim as stated fails: the Stop button is still shown while the
    retrieval of [getFullContract] is in flight, and that fetch carries no
    abort signal. A stop there leaves no cancellation message, the
    retrieval has been sent, and its answer is stored. *)
Lemma C4_counterexample :
  let m := run sentinel_session initial in
  let m' := run stop_during_retrieval m in
  isGenerating m = true /\
  contractData m' = sample_response /\ sample_response <> VNull /\
  error m' = None /\
  filter (fun r => is_full_request r = true) (requests m')
    = [full_request (js "abc123]")].
Proof. cbn zeta. split_and!; try reflexivity. discriminate. Qed.

(** C4, amended. Take a session from its start in which only promises of
    this call have settled. When the user stops generation while the
    generation request, the body of its failed response, or a read of its
    stream is pending, the controller is aborted and the session ends with
    the cancellation message and generation off; no contract is stored,
    the generation request is the only request sent, and no promise of
    this call does anything afterwards. *)
Theorem C4_stop_cancels_stream (m : machine) (formData : value)
    (evs : list event) :
  forallb is_settlement evs = true ->
  let m1 := run evs (handleGenerateContract formData m) in
  awaits_stream (at_await m1) = true ->
  let m' := step m1 Click_stop in
  abortController m' = Some true /\
  error m' = Some cancelled_message /\
  isGenerating m' = false /\ at_await m' = Idle /\
  contractData m' = VNull /\
  requests m' =
    requests m ++ [POST_generate_contract (JSON_stringify formData)] /\
  forall e, is_settlement e = true -> step m' e = m'.
Proof.
  intros Hevs. cbn zeta.
  set (m1 := run evs (handleGenerateContract formData m)). intros Hp.
  destruct (own_session_streaming evs m formData Hevs Hp)
    as (Hg & Hd & _ & Ha & Hl & Hr). fold m1 in Hg, Hd, Ha, Hl, Hr.
  assert (step m1 Click_stop =
          catch_finally AbortError
            (setIsGenerating false (setAbortController (Some true) m1))) as ->.
  { cbn. rewrite Hg. unfold handleStopGeneration. rewrite Ha. cbn.
    rewrite Hl. unfold rejected_by_abort. cbn. by destruct (at_await m1). }
  cbn. split_and!; try done.
  intros e He. destruct e; try discriminate He; reflexivity.
Qed.

Lemma C4_stop_cancels_stream_witness :
  let evs := [Response_ok; Read_chunk (js "data: Hello")] in
  let m1 := run evs (handleGenerateContract VNull initial) in
  let m' := step m1 Click_stop in
  forallb is_settlement evs = true /\
  awaits_stream (at_await m1) = true /\
  error m' = Some cancelled_message /\
  isGenerating m' = false /\
  contractData m' = VNull.
Proof.
  cbn zeta.
  pose proof (C4_stop_cancels_stream initial VNull
                [Response_ok; Read_chunk (js "data: Hello")] eq_refl eq_refl)
    as (_ & H2 & H3 & _ & H5 & _).
  split; [reflexivity|]. split; [reflexivity|].
  split; [exact H2|]. split; [exact H3|exact H5].
Defined.

End EndOfSession.

(** ** What the form submits: claims C6, C7 and C8 *)

Section FormFacts.

Import ContractGenerator Protocol Scenarios.

Lemma handleSubmit_some st formData :
  ContractForm.handleSubmit st = Some formData ->
  nonempty (trim (ContractForm.businessDescription st)) = true /\
  formData = form_data (ContractForm.contractType st)
               (ContractForm.businessDescription st).
Proof.
  unfold ContractForm.handleSubmit.
  destruct (nonempty (trim (ContractForm.businessDescription st))); cbn; [|done].
  by intros [= <-].
Qed.

(** A description of whitespace only is not submitted. *)
Lemma blank_description_not_submitted st :
  whitespace_only (ContractForm.businessDescription st) = true ->
  ContractForm.handleSubmit st = None.
Proof.
  intros Hb. unfold ContractForm.handleSubmit. by rewrite (trim_blank _ Hb).
Qed.

Lemma stringify_form_data type text :
  JSON_stringify (form_data type text) = form_data type text.
Proof. reflexivity. Qed.

Lemma for_lines_form lines : forall content m,
  form (for_lines lines content m) = form m.
Proof.
  induction lines as [|line rest IH]; intros content m; cbn; [done|].
  destruct (includes line END_OF_DOC); [done|].
  destruct (startsWith line (js "data: ")); [|by rewrite IH].
  destruct (startsWith (slice 6 line) (js "Error:")); [done|by rewrite IH].
Qed.

Lemma for_lines_generate_requests lines body : forall content m,
  POST_generate_contract body ∈ requests (for_lines lines content m) ->
  POST_generate_contract body ∈ requests m.
Proof.
  induction lines as [|line rest IH]; intros content m; cbn; [done|].
  destruct (includes line END_OF_DOC).
  { cbn. intros [?|[= ]%list_elem_of_singleton]%elem_of_app. done. }
  destruct (startsWith line (js "data: ")); [|by apply IH].
  destruct (startsWith (slice 6 line) (js "Error:")); [done|].
  intros H. by apply IH in H.
Qed.

Lemma switch_untouched call m :
  form (switch call m) = form m /\
  requests (switch call m) = requests m /\
  contractData (switch call m) = contractData m /\
  error (switch call m) = error m /\
  downloads_answered (switch call m) = downloads_answered m.
Proof. unfold switch. by destruct (parked m !! call). Qed.

Lemma rejected_by_abort_untouched m :
  form (rejected_by_abort m) = form m /\
  requests (rejected_by_abort m) = requests m /\
  contractData (rejected_by_abort m) = contractData m.
Proof. unfold rejected_by_abort. by destruct (at_await m). Qed.

Lemma handleStopGeneration_untouched m :
  form (handleStopGeneration m) = form m /\
  requests (handleStopGeneration m) = requests m /\
  contractData (handleStopGeneration m) = contractData m.
Proof.
  unfold handleStopGeneration.
  set (m2 := setIsGenerating false _).
  assert (form m2 = form m /\ requests m2 = requests m /\
          contractData m2 = contractData m) as (Hf & Hr & Hd).
  { unfold m2. by destruct (abortController m). }
  destruct (latest m2) as [call|].
  - destruct (parked m2 !! call); [|done].
    destruct (switch_untouched call (rejected_by_abort (switch call m2)))
      as (-> & -> & -> & _).
    destruct (rejected_by_abort_untouched (switch call m2)) as (-> & -> & ->).
    destruct (switch_untouched call m2) as (-> & -> & -> & _). done.
  - by destruct (rejected_by_abort_untouched m2) as (-> & -> & ->).
Qed.

Lemma download_answered_untouched thrown_message m :
  form (download_answered thrown_message m) = form m /\
  requests (download_answered thrown_message m) = requests m /\
  contractData (download_answered thrown_message m) = contractData m.
Proof.
  unfold download_answered.
  destruct (download_pending m); [|done]. by destruct thrown_message.
Qed.

Lemma handleDownload_form m : form (handleDownload m) = form m.
Proof. unfold handleDownload. by destruct (truthy (contractData m)). Qed.

Lemma handleDownload_generate_requests m body :
  POST_generate_contract body ∈ requests (handleDownload m) ->
  POST_generate_contract body ∈ requests m.
Proof.
  unfold handleDownload. destruct (truthy (contractData m)); [|done].
  cbn. by intros [?|[= ]%list_elem_of_singleton]%elem_of_app.
Qed.

Lemma settle_form m e : form (settle m e) = form m.
Proof.
  unfold settle. destruct e; destruct (at_await m); try done.
  apply for_lines_form.
Qed.

Lemma settle_generate_requests m e body :
  POST_generate_contract body ∈ requests (settle m e) ->
  POST_generate_contract body ∈ requests m.
Proof.
  unfold settle. destruct e; destruct (at_await m); try done.
  apply for_lines_generate_requests.
Qed.

Lemma step_form m e :
  form (step m e) =
  match e with
  | Type_description text =>
      ContractForm.setBusinessDescription text (form m)
  | _ => form m
  end.
Proof.
  destruct (handleStopGeneration_untouched m) as (Hstop & _ & _).
  destruct e; cbn [step]; rewrite ?settle_form, ?handleDownload_form; try done.
  - destruct (isGenerating m); [done|].
    by destruct (ContractForm.handleSubmit (form m)).
  - by destruct (isGenerating m).
  - apply switch_untouched.
  - apply download_answered_untouched.
  - apply download_answered_untouched.
  - apply download_answered_untouched.
Qed.

(** A generation request enters the log only through [handleSubmit]. *)
Lemma step_generate_requests m e body :
  POST_generate_contract body ∈ requests (step m e) ->
  POST_generate_contract body ∈ requests m \/
  (e = Click_generate /\
   exists formData, ContractForm.handleSubmit (form m) = Some formData /\
                    body = JSON_stringify formData).
Proof.
  destruct (handleStopGeneration_untouched m) as (_ & Hstop & _).
  destruct e; cbn [step];
    try (intros H; left; by apply settle_generate_requests in H).
  - by left.
  - destruct (isGenerating m); [by left|].
    destruct (ContractForm.handleSubmit (form m)) as [formData|]; [|by left].
    cbn. intros [?|[= ->]%list_elem_of_singleton]%elem_of_app; [by left|].
    right. eauto.
  - destruct (isGenerating m); rewrite ?Hstop; by left.
  - intros H. left. by apply handleDownload_generate_requests.
  - destruct (switch_untouched call m) as (_ & -> & _). by left.
  - destruct (download_answered_untouched (Some message) m) as (_ & -> & _).
    by left.
  - destruct (download_answered_untouched
                (Some (js "Failed to download contract")) m) as (_ & -> & _).
    by left.
  - destruct (download_answered_untouched None m) as (_ & -> & _). by left.
Qed.

(** Whatever the user and the network do, the contract type of the form is
    the initial one, its description is what was last typed, and every
    generation request in the log is the form data of a typed text. *)
Lemma submitted_from_form evs :
  let m := run evs initial in
  ContractForm.contractType (form m) = TERMS_OF_SERVICE /\
  (ContractForm.businessDescription (form m) = [] \/
   Type_description (ContractForm.businessDescription (form m)) ∈ evs) /\
  forall body, POST_generate_contract body ∈ requests m ->
    exists text, Type_description text ∈ evs /\
                 nonempty (trim text) = true /\
                 body = form_data TERMS_OF_SERVICE text.
Proof.
  induction evs as [|e evs (IHt & IHd & IHr)] using rev_ind.
  - cbn. split_and!; [done|by left|]. by intros body ?%elem_of_nil.
  - cbn zeta. rewrite run_snoc. set (m := run evs initial) in *.
    rewrite step_form. split_and!.
    + by destruct e.
    + destruct e;
        try (destruct IHd as [?|?]; [by left|right; apply elem_of_app; by left]).
      right. cbn. apply elem_of_app. right. by apply list_elem_of_singleton.
    + intros body [Hold|(-> & formData & Hsub & ->)]%step_generate_requests.
      * destruct (IHr body Hold) as (text & ? & ? & ?).
        exists text. split_and!; [apply elem_of_app; by left|done..].
      * apply handleSubmit_some in Hsub as [Hne ->].
        rewrite IHt, stringify_form_data.
        destruct IHd as [Hnil|Hin]; [by rewrite Hnil in Hne|].
        exists (ContractForm.businessDescription (form m)).
        split_and!; [apply elem_of_app; by left|done..].
Qed.

End FormFacts.

Section FormClaims.

Import ContractGenerator Protocol Scenarios.

(** C6, evaluated on the code. Every generation request the form submits
    carries a business context and an enumerated contract type but no
    language: it is not a [ContractGenerationRequest], whose language field
    is required. *)
Theorem C6_submitted_request_lacks_language (evs : list event) (body : value) :
  POST_generate_contract body ∈ requests (run evs initial) ->
  conforms BusinessContext (get "business_context" body) = true /\
  conforms ContractType_ty (get "contract_type" body) = true /\
  get "language" body = VUndefined /\
  conforms ContractGenerationRequest body = false.
Proof.
  intros Hin.
  destruct (submitted_from_form evs) as (_ & _ & Hreq).
  destruct (Hreq body Hin) as (text & _ & _ & ->).
  split_and!; reflexivity.
Qed.

Lemma C6_submitted_request_lacks_language_witness :
  let body := form_data TERMS_OF_SERVICE (js "A SaaS company") in
  POST_generate_contract body ∈ requests (run session_start initial) /\
  get "language" body = VUndefined /\
  conforms ContractGenerationRequest body = false.
Proof.
  cbn zeta.
  assert (POST_generate_contract
            (form_data TERMS_OF_SERVICE (js "A SaaS company"))
          ∈ requests (run session_start initial)) as Hin.
  { vm_compute. apply list_elem_of_here. }
  pose proof (C6_submitted_request_lacks_language session_start _ Hin)
    as (_ & _ & H3 & H4).
  split; [exact Hin|]. split; [exact H3|exact H4].
Defined.

(** C7, the claim as stated fails: no interaction makes the form submit a
    request whose contract type is [nda]. *)
Lemma C7_counterexample :
  ~ exists evs body,
      POST_generate_contract body ∈ requests (run evs initial) /\
      get "contract_type" body = VStr (ContractType_value NDA).
Proof.
  intros (evs & body & Hin & Hty).
  destruct (submitted_from_form evs) as (_ & _ & Hreq).
  destruct (Hreq body Hin) as (text & _ & _ & ->).
  vm_compute in Hty. discriminate Hty.
Qed.

(** C7, amended. The form does not collect the contract type: the select
    that would set it is commented out, so the contract type of every
    submitted request is the initial one, [terms_of_service], whatever the
    user does. *)
Theorem C7_contract_type_is_initial (evs : list event) (body : value) :
  POST_generate_contract body ∈ requests (run evs initial) ->
  get "contract_type" body = VStr (ContractType_value TERMS_OF_SERVICE).
Proof.
  intros Hin.
  destruct (submitted_from_form evs) as (_ & _ & Hreq).
  destruct (Hreq body Hin) as (text & _ & _ & ->).
  reflexivity.
Qed.

Lemma C7_contract_type_is_initial_witness :
  let body := form_data TERMS_OF_SERVICE (js "A SaaS company") in
  POST_generate_contract body ∈ requests (run session_start initial) /\
  get "contract_type" body = VStr (js "terms_of_service").
Proof.
  cbn zeta.
  assert (POST_generate_contract
            (form_data TERMS_OF_SERVICE (js "A SaaS company"))
          ∈ requests (run session_start initial)) as Hin.
  { vm_compute. apply list_elem_of_here. }
  split; [exact Hin|].
  exact (C7_contract_type_is_initial session_start _ Hin).
Defined.



End FormClaims.

(** ** The download request: claim C10 *)

Section DownloadFacts.

Import ContractGenerator Protocol Scenarios Sessions MoreScenarios.

(** Reading a property that the type of an object does not declare. *)
Lemma undeclared_is_undefined t data k :
  only_declared_fields t data -> k ∉ field_names t -> get k data = VUndefined.
Proof.
  unfold only_declared_fields.
  destruct data as [| | | | | |o]; try done.
  intros Hdecl Hk. cbn.
  destruct (o !! k) as [v|] eqn:Hv; [|done].
  destruct Hk. apply Hdecl. eauto.
Qed.

(** An object literal has the properties it is written with. *)
Lemma obj_only_declared t fields :
  Forall (fun k => k ∈ field_names t) fields.*1 ->
  only_declared_fields t (obj fields).
Proof.
  intros Hall k [v Hv]. rewrite Forall_forall in Hall. apply Hall.
  destruct (decide (k ∈ fields.*1)) as [|Hn]; [done|].
  rewrite not_elem_of_list_to_map_1 in Hv; [done|].
  by rewrite fmap_reverse, elem_of_reverse.
Qed.

Lemma declared_no_businessContext data :
  declared_contract data -> get "businessContext" data = VUndefined.
Proof.
  intros [Hd|Hd]; apply (undeclared_is_undefined _ _ _ Hd); by_computation.
Qed.

(** Without a [businessContext] to read, the body that is sent has none. *)
Lemma download_body_without_businessContext contractType :
  JSON_stringify
    (obj [("businessContext", VUndefined);
          ("contractType", contractType);
          ("customSections", VArr []);
          ("language", VStr (js "en"));
          ("jurisdiction", VStr [])]%string)
  = download_body contractType /\
  get "businessContext" (download_body contractType) = VUndefined.
Proof. by destruct contractType. Qed.

Lemma for_lines_contractData lines : forall content m,
  contractData (for_lines lines content m) = contractData m.
Proof.
  induction lines as [|line rest IH]; intros content m; cbn; [done|].
  destruct (includes line END_OF_DOC); [done|].
  destruct (startsWith line (js "data: ")); [|by rewrite IH].
  destruct (startsWith (slice 6 line) (js "Error:")); [done|by rewrite IH].
Qed.

Lemma for_lines_download_requests lines body : forall content m,
  POST_download_contract body ∈ requests (for_lines lines content m) ->
  POST_download_contract body ∈ requests m.
Proof.
  induction lines as [|line rest IH]; intros content m; cbn; [done|].
  destruct (includes line END_OF_DOC).
  { cbn. intros [?|[= ]%list_elem_of_singleton]%elem_of_app. done. }
  destruct (startsWith line (js "data: ")); [|by apply IH].
  destruct (startsWith (slice 6 line) (js "Error:")); [done|].
  intros H. by apply IH in H.
Qed.

(** The stored contract changes only when a generation starts and when a
    retrieval that is awaited succeeds. *)
Lemma settle_contractData m e :
  contractData (settle m e) = contractData m \/
  (exists data, e = Full_ok data /\ at_await m = AwaitFull /\
                contractData (settle m e) = data).
Proof.
  unfold settle.
  destruct e; destruct (at_await m) eqn:Hp; try (left; reflexivity).
  - left. apply for_lines_contractData.
  - right. by eexists.
Qed.

Lemma step_contractData m e :
  contractData (step m e) = contractData m \/
  contractData (step m e) = VNull \/
  (exists data, e = Full_ok data /\ at_await m = AwaitFull /\
                contractData (step m e) = data).
Proof.
  destruct (handleStopGeneration_untouched m) as (_ & _ & Hstop).
  pose proof (settle_contractData m e) as Hsettle.
  destruct e; cbn [step];
    try (destruct Hsettle as [?|?]; [by left|by right; right]).
  - destruct (isGenerating m); [by left|].
    destruct (ContractForm.handleSubmit (form m)); [right; by left|by left].
  - destruct (isGenerating m); rewrite ?Hstop; by left.
  - left. unfold handleDownload. by destruct (truthy (contractData m)).
  - left. apply switch_untouched.
  - left. apply download_answered_untouched.
  - left. apply download_answered_untouched.
  - left. apply download_answered_untouched.
Qed.

Lemma settle_download_requests m e body :
  POST_download_contract body ∈ requests (settle m e) ->
  POST_download_contract body ∈ requests m.
Proof.
  unfold settle. destruct e; destruct (at_await m); try done.
  apply for_lines_download_requests.
Qed.

(** A download request enters the log only through [handleDownload], with
    a contract on the page. *)
Lemma step_download_requests m e body :
  POST_download_contract body ∈ requests (step m e) ->
  POST_download_contract body ∈ requests m \/
  (truthy (contractData m) = true /\ body = download_body_of (contractData m)).
Proof.
  destruct (handleStopGeneration_untouched m) as (_ & Hstop & _).
  destruct e; cbn [step];
    try (intros H; left; by apply settle_download_requests in H).
  - by left.
  - destruct (isGenerating m); [by left|].
    destruct (ContractForm.handleSubmit (form m)) as [formData|]; [|by left].
    cbn. intros [?|[= ]%list_elem_of_singleton]%elem_of_app. by left.
  - destruct (isGenerating m); rewrite ?Hstop; by left.
  - unfold handleDownload. destruct (truthy (contractData m)); [|by left].
    cbn. intros [?|[= ->]%list_elem_of_singleton]%elem_of_app; [by left|].
    by right.
  - destruct (switch_untouched call m) as (_ & -> & _). by left.
  - destruct (download_answered_untouched (Some message) m) as (_ & -> & _).
    by left.
  - destruct (download_answered_untouched
                (Some (js "Failed to download contract")) m) as (_ & -> & _).
    by left.
  - destruct (download_answered_untouched None m) as (_ & -> & _). by left.
Qed.

Lemma truthy_not_null v : truthy v = true -> v <> VNull.
Proof. by intros Ht ->. Qed.

(** What is stored is null or the answer of a retrieval. *)
Lemma stored_is_an_answer evs :
  contractData (run evs initial) = VNull \/
  Full_ok (contractData (run evs initial)) ∈ evs.
Proof.
  induction evs as [|e evs IH] using rev_ind; [by left|].
  rewrite run_snoc.
  destruct (step_contractData (run evs initial) e)
    as [->|[->|(data & -> & _ & ->)]].
  - destruct IH as [?|?]; [by left|right]. apply elem_of_app. by left.
  - by left.
  - right. apply elem_of_app. right. apply list_elem_of_here.
Qed.

(** Every download request is made of a stored answer. *)
Lemma downloads_from_answers evs body :
  POST_download_contract body ∈ requests (run evs initial) ->
  exists data, Full_ok data ∈ evs /\ truthy data = true /\
               body = download_body_of data.
Proof.
  induction evs as [|e evs IH] using rev_ind; [by intros ?%elem_of_nil|].
  rewrite run_snoc. intros [Hold|[Ht ->]]%step_download_requests.
  - destruct (IH Hold) as (data & Hin & Ht & ->).
    exists data. split_and!; [apply elem_of_app; by left|done..].
  - destruct (stored_is_an_answer evs) as [Hnull|Hin].
    { by destruct (truthy_not_null _ Ht). }
    exists (contractData (run evs initial)).
    split_and!; [apply elem_of_app; by left|done..].
Qed.

(** The business context of the body is the one of the stored answer: left
    out when it is undefined, sent as it is otherwise. *)
Lemma download_body_businessContext data :
  get "businessContext" (download_body_of data) = get "businessContext" data.
Proof.
  unfold download_body_of.
  destruct (get "businessContext" data), (get "contractType" data);
    reflexivity.
Qed.

(** C10, the claim as stated fails: a retrieval answered with a
    [businessContext] property is stored as it is, the page draws it, and
    the download request carries that business context. *)
Lemma C10_counterexample :
  let m := run (sentinel_session ++ [Full_ok answer_with_businessContext])
             initial in
  let m' := step m Click_download in
  forallb (fun v => bool_decide (is_Some v)) (ContractDisplay.page m) = true /\
  requests m' =
    requests m ++
    [POST_download_contract (download_body_of answer_with_businessContext)] /\
  get "businessContext" (download_body_of answer_with_businessContext)
    = obj [("description", VStr (js "A SaaS company"))]%string /\
  obj [("description", VStr (js "A SaaS company"))]%string <> VUndefined.
Proof.
  cbn zeta. split_and!.
  - vm_compute. reflexivity.
  - vm_compute. reflexivity.
  - vm_compute. reflexivity.
  - unfold obj. discriminate.
Qed.

(** C10, amended. Every download request is made of a stored retrieval
    answer alone, whatever the generation request was: its business
    context is the [businessContext] property of that answer, which is not
    a field of the response type, so it is undefined, and left out of the
    body, for every answer that has the fields of the response type only,
    and is forwarded when the answer happens to have one. *)
Theorem C10_download_businessContext_of_answer (evs : list event)
    (body : value) :
  POST_download_contract body ∈ requests (run evs initial) ->
  exists data,
    Full_ok data ∈ evs /\ truthy data = true /\
    body = download_body_of data /\
    get "businessContext" body = get "businessContext" data /\
    (only_declared_fields ContractGenerationResponse data ->
     get "businessContext" body = VUndefined).
Proof.
  intros (data & Hin & Ht & ->)%downloads_from_answers.
  exists data. split_and!; try done.
  - apply download_body_businessContext.
  - intros Hd. rewrite download_body_businessContext.
    apply declared_no_businessContext. by right.
Qed.

Lemma C10_download_businessContext_of_answer_witness :
  let body := download_body_of sample_response in
  POST_download_contract body ∈ requests (run download_session initial) /\
  exists data,
    Full_ok data ∈ download_session /\
    get "businessContext" body = get "businessContext" data.
Proof.
  cbn zeta.
  assert (POST_download_contract (download_body_of sample_response)
          ∈ requests (run download_session initial)) as Hin.
  { vm_compute. do 2 apply list_elem_of_further. apply list_elem_of_here. }
  split; [exact Hin|].
  destruct (C10_download_businessContext_of_answer _ _ Hin)
    as (data & H1 & _ & _ & H4 & _).
  exists data. split; [exact H1|exact H4].
Defined.

End DownloadFacts.

(** ** The finished contract on the page: claim C5 *)

Section DisplayFacts.

Import ContractGenerator ContractDisplay Protocol Scenarios.

(** What is drawn for a stored contract depends on [fields_read] only. *)
Lemma page_reads_fields_read m data1 data2 :
  truthy data1 = true -> truthy data2 = true ->
  (forall k, k ∈ fields_read -> get k data1 = get k data2) ->
  page (setContractData data1 m) = page (setContractData data2 m).
Proof.
  intros Ht1 Ht2 Hget. unfold page, render.
  cbn [contractData setContractData streamingContent isGenerating].
  rewrite Ht1, Ht2, andb_false_r. cbn [app fmap list_fmap].
  unfold ContractDisplay. cbn [metadata content isStreaming].
  rewrite Ht1, Ht2. unfold child_fields. cbn [forallb].
  rewrite (Hget "htmlContent"%string), (Hget "contract_type"%string),
    (Hget "total_sections"%string), (Hget "estimated_pages"%string),
    (Hget "generation_time"%string), (Hget "model_used"%string);
    try by_computation.
  reflexivity.
Qed.

(** A contract of the declared response type has no [htmlContent]. *)
Lemma response_has_no_htmlContent data :
  only_declared_fields ContractGenerationResponse data ->
  get "htmlContent" data = VUndefined.
Proof.
  intros Hd. apply (undeclared_is_undefined _ _ _ Hd). by_computation.
Qed.

(** A contract of the declared state type has no [contract_type]: the
    display throws on it. *)
Lemma contract_data_has_no_contract_type data :
  only_declared_fields ContractData data ->
  get "contract_type" data = VUndefined.
Proof.
  intros Hd. apply (undeclared_is_undefined _ _ _ Hd). by_computation.
Qed.

(** C5, evaluated on the code. The display reads [htmlContent], which is not
    a field of the retrieval response type: for a fetched document of that
    type the metadata box is drawn but the HTML handed to the page is
    undefined. For a document of the state type [ContractData], which has
    [htmlContent], the metadata fields are missing and the render throws. *)
Theorem C5_fetched_html_is_not_rendered :
  let m := run (sentinel_session ++ [Full_ok sample_response]) initial in
  let m2 := run (sentinel_session ++ [Full_ok sample_contract_data]) initial in
  conforms ContractGenerationResponse sample_response = true /\
  ("htmlContent"%string ∈ fields_read) /\
  ("htmlContent"%string ∉ field_names ContractGenerationResponse) /\
  page m =
    [Some {| shown_details :=
               Some {| contract_type_text := js "Terms Of Service";
                       total_sections := VNum 12;
                       estimated_pages := VNum 5;
                       generation_time := VNum (7 # 2);
                       model_used := VStr (js "openai/gpt-4o-mini") |};
             inner_html := VUndefined;
             live := false |}] /\
  conforms ContractData sample_contract_data = true /\
  page m2 = [None].
Proof.
  cbn zeta. split_and!; try reflexivity; by_computation.
Qed.

End DisplayFacts.

(** * Further properties *)

(** ** Chunks and lines *)

Section ChunkFacts.

Import ContractGenerator Protocol Scenarios Sessions MoreScenarios.

(** X1. How the stream is cut into chunks matters only through the lines
    it gives: a session that reads chunks one after the other ends in the
    state of one run of the line loop over all their lines. *)
Theorem X1_chunks_read_as_lines (m : machine) (formData : value)
    (chunks : list jsstring) :
  run (Response_ok :: (Read_chunk <$> chunks))
    (handleGenerateContract formData m)
  = for_lines (lines_of chunks) [] (handleGenerateContract formData m).
Proof.
  change (run (Response_ok :: (Read_chunk <$> chunks))
            (handleGenerateContract formData m))
    with (run (Read_chunk <$> chunks)
            (suspend (AwaitRead []) (handleGenerateContract formData m))).
  rewrite (read_chunks_as_lines chunks _ []) by done.
  apply for_lines_suspend.
Qed.



(** X3. When the stream ends with neither sentinel nor error line, the
    session just ends: no error is set, no retrieval is sent, no contract is
    stored, and the text streamed so far stays on the page, no longer marked
    as streaming. *)
Theorem X3_stream_end_without_terminal (m : machine) (formData : value)
    (chunks : list jsstring) :
  first_terminal (lines_of chunks) = None ->
  let m' := run (Response_ok :: (Read_chunk <$> chunks) ++ [Read_done])
              (handleGenerateContract formData m) in
  at_await m' = Idle /\ isGenerating m' = false /\
  error m' = None /\ contractData m' = VNull /\
  streamingContent m' = payloads (lines_of chunks) /\
  requests m' = requests m ++ [POST_generate_contract (JSON_stringify formData)] /\
  render m' =
    if nonempty (payloads (lines_of chunks)) then
      [{| content := VStr (payloads (lines_of chunks)); isStreaming := false;
          metadata := VUndefined |}]
    else [].
Proof.
  intros Hnone. cbn zeta.
  change (run (Response_ok :: (Read_chunk <$> chunks) ++ [Read_done])
            (handleGenerateContract formData m))
    with (run ((Read_chunk <$> chunks) ++ [Read_done])
            (suspend (AwaitRead []) (handleGenerateContract formData m))).
  rewrite run_snoc, (read_chunks_as_lines chunks _ []) by done.
  rewrite for_lines_after_lines by done.
  unfold after_lines. rewrite Hnone, (before_terminal_none _ Hnone).
  cbn. split_and!; try done.
  unfold render. cbn.
  by destruct (nonempty (payloads (lines_of chunks))).
Qed.

Lemma X3_stream_end_without_terminal_witness :
  let m' := run (Response_ok :: (Read_chunk <$> plain_chunks) ++ [Read_done])
              (handleGenerateContract VNull initial) in
  first_terminal (lines_of plain_chunks) = None /\
  error m' = None /\ contractData m' = VNull /\
  streamingContent m' = js "Hello, world".
Proof.
  cbn zeta.
  pose proof (X3_stream_end_without_terminal initial VNull plain_chunks eq_refl)
    as (_ & _ & H3 & H4 & H5 & _).
  split; [reflexivity|]. split; [exact H3|]. split; [exact H4|exact H5].
Defined.

End ChunkFacts.

(** ** What a session never does *)

Section NeverFacts.

Import ContractGenerator Protocol Scenarios Sessions MoreScenarios RightColumn.











Lemma for_lines_await_full lines : forall content m,
  at_await (for_lines lines content m) = AwaitFull ->
  exists line, line ∈ lines /\ is_sentinel line = true.
Proof.
  induction lines as [|line rest IH]; intros content m; cbn [for_lines];
    [done|].
  destruct (includes line END_OF_DOC) eqn:Hs.
  { intros _. exists line. split; [apply list_elem_of_here|done]. }
  assert (forall c m', at_await (for_lines rest c m') = AwaitFull ->
            exists l, l ∈ line :: rest /\ is_sentinel l = true) as Hrest.
  { intros c m' (l & Hl & Hsl)%IH. exists l.
    split; [by apply list_elem_of_further|done]. }
  destruct (startsWith line (js "data: ")); [|by apply Hrest].
  destruct (startsWith (slice 6 line) (js "Error:")); [done|by apply Hrest].
Qed.

(** A call, in focus or parked, awaits its retrieval. *)
Lemma switch_awaits_full call m :
  at_await (switch call m) = AwaitFull \/ AwaitFull ∈ parked (switch call m) ->
  at_await m = AwaitFull \/ AwaitFull ∈ parked m.
Proof.
  unfold switch. destruct (parked m !! call) as [p|] eqn:Hcall; [|done].
  cbn. intros [->|Hin].
  { right. by eapply list_elem_of_lookup_2. }
  apply list_elem_of_lookup_1 in Hin as [i Hi].
  apply list_lookup_insert_Some in Hi as [(_ & Heq & _)|(_ & Hi)].
  - by left.
  - right. by eapply list_elem_of_lookup_2.
Qed.

Lemma rejected_by_abort_awaits_full m :
  at_await (rejected_by_abort m) = AwaitFull \/
    AwaitFull ∈ parked (rejected_by_abort m) ->
  at_await m = AwaitFull \/ AwaitFull ∈ parked m.
Proof.
  unfold rejected_by_abort.
  destruct (at_await m) eqn:Hp; cbn; rewrite ?Hp;
    (intros [?|?]; [done || by left|by right]).
Qed.

Lemma handleStopGeneration_awaits_full m :
  at_await (handleStopGeneration m) = AwaitFull \/
    AwaitFull ∈ parked (handleStopGeneration m) ->
  at_await m = AwaitFull \/ AwaitFull ∈ parked m.
Proof.
  unfold handleStopGeneration.
  set (m2 := setIsGenerating false _).
  assert (at_await m2 = at_await m /\ parked m2 = parked m) as [Hp Hq].
  { unfold m2. by destruct (abortController m). }
  rewrite <- Hp, <- Hq.
  destruct (latest m2) as [call|]; [|apply rejected_by_abort_awaits_full].
  destruct (parked m2 !! call); [|done].
  intros H. by apply switch_awaits_full, rejected_by_abort_awaits_full,
    switch_awaits_full in H.
Qed.

Lemma for_lines_parked lines : forall content m,
  parked (for_lines lines content m) = parked m.
Proof.
  induction lines as [|line rest IH]; intros content m; cbn; [done|].
  destruct (includes line END_OF_DOC); [done|].
  destruct (startsWith line (js "data: ")); [|by rewrite IH].
  destruct (startsWith (slice 6 line) (js "Error:")); [done|by rewrite IH].
Qed.

Lemma settle_parked m e : parked (settle m e) = parked m.
Proof.
  unfold settle. destruct e; destruct (at_await m); try done.
  apply for_lines_parked.
Qed.

Lemma settle_await_full m e :
  at_await (settle m e) = AwaitFull ->
  at_await m = AwaitFull \/
  exists chunk line,
    e = Read_chunk chunk /\ line ∈ split 10 chunk /\ is_sentinel line = true.
Proof.
  unfold settle. destruct e; destruct (at_await m) eqn:Hp;
    try (by left); try done;
    try (intros H; rewrite Hp in H; discriminate H).
  intros (line & Hl & Hs)%for_lines_await_full. right. by exists chunk, line.
Qed.

(** The retrieval is awaited only after a line with the marker. *)
Lemma step_await_full m e :
  at_await (step m e) = AwaitFull \/ AwaitFull ∈ parked (step m e) ->
  (at_await m = AwaitFull \/ AwaitFull ∈ parked m) \/
  exists chunk line,
    e = Read_chunk chunk /\ line ∈ split 10 chunk /\ is_sentinel line = true.
Proof.
  assert (forall e', step m e' = settle m e' ->
            at_await (step m e') = AwaitFull \/
              AwaitFull ∈ parked (step m e') ->
            (at_await m = AwaitFull \/ AwaitFull ∈ parked m) \/
            exists chunk line,
              e' = Read_chunk chunk /\ line ∈ split 10 chunk /\
              is_sentinel line = true) as Hsettle.
  { intros e' ->. rewrite settle_parked.
    intros [[?|?]%settle_await_full|?]; [by left; left|by right|by left; right]. }
  assert (forall thrown_message,
            at_await (download_answered thrown_message m) = at_await m /\
            parked (download_answered thrown_message m) = parked m) as Hdl.
  { intros thrown_message. unfold download_answered.
    destruct (download_pending m); [|done]. by destruct thrown_message. }
  destruct e; try (by apply Hsettle); cbn [step].
  - by left.
  - destruct (isGenerating m); [by left|].
    destruct (ContractForm.handleSubmit (form m)); [|by left].
    cbn. intros [?|[?|Hp%list_elem_of_singleton]%elem_of_app]; [done|..].
    + left. by right.
    + left. by left.
  - destruct (isGenerating m); [|by left].
    intros ?%handleStopGeneration_awaits_full. by left.
  - unfold handleDownload. destruct (truthy (contractData m)); by left.
  - intros ?%switch_awaits_full. by left.
  - destruct (Hdl (Some message)) as [-> ->]. by left.
  - destruct (Hdl (Some (js "Failed to download contract"))) as [-> ->].
    by left.
  - destruct (Hdl None) as [-> ->]. by left.
Qed.

Lemma sentinel_received_snoc evs e :
  sentinel_received evs -> sentinel_received (evs ++ [e]).
Proof.
  intros (chunk & line & Hin & Hl & Hs). exists chunk, line.
  split_and!; [apply elem_of_app; by left|done..].
Qed.

Lemma stored_needs_sentinel evs :
  let m := run evs initial in
  (at_await m = AwaitFull \/ AwaitFull ∈ parked m -> sentinel_received evs) /\
  (contractData m <> VNull ->
   sentinel_received evs /\ Full_ok (contractData m) ∈ evs).
Proof.
  induction evs as [|e evs [IHa IHd]] using rev_ind.
  { split; [|done]. by intros [?|?%elem_of_nil]. }
  cbn zeta. rewrite run_snoc. set (m := run evs initial) in *.
  assert (at_await m = AwaitFull \/ AwaitFull ∈ parked m ->
          sentinel_received (evs ++ [e])) as Hold.
  { intros Hp. by apply sentinel_received_snoc, IHa. }
  split.
  - intros [Hp|(chunk & line & -> & Hl & Hs)]%step_await_full; [by apply Hold|].
    exists chunk, line.
    split_and!; [|done..]. apply elem_of_app. right. apply list_elem_of_here.
  - destruct (step_contractData m e)
      as [->|[->|(data & -> & Hp & ->)]]; [|done|].
    + intros [Hs Hin]%IHd. split; [by apply sentinel_received_snoc|].
      apply elem_of_app. by left.
    + intros _. split; [apply Hold; by left|].
      apply elem_of_app. right. apply list_elem_of_here.
Qed.

(** X5. A contract is stored only as the answer of a retrieval, and a
    retrieval is made only after a line with the sentinel marker: whenever
    [contractData] is not null, some chunk read earlier had such a line and
    the stored value is what a retrieval answered. *)
Theorem X5_stored_contract_needs_sentinel (evs : list event) :
  contractData (run evs initial) <> VNull ->
  sentinel_received evs /\ Full_ok (contractData (run evs initial)) ∈ evs.
Proof.
  intros Hstored.
  destruct (stored_needs_sentinel evs) as [_ Hd]. by apply Hd.
Qed.

Lemma X5_stored_contract_needs_sentinel_witness :
  let evs := sentinel_session ++ [Full_ok sample_response] in
  contractData (run evs initial) <> VNull /\
  sentinel_received evs /\ Full_ok sample_response ∈ evs.
Proof.
  cbn zeta.
  assert (contractData (run (sentinel_session ++ [Full_ok sample_response])
                          initial) <> VNull) as Hstored.
  { vm_compute. discriminate. }
  split; [exact Hstored|].
  exact (X5_stored_contract_needs_sentinel _ Hstored).
Defined.

Lemma step_download_stored m e body :
  POST_download_contract body ∈ requests (step m e) ->
  POST_download_contract body ∈ requests m \/ truthy (contractData m) = true.
Proof.
  intros [?|[? _]]%step_download_requests; [by left|by right].
Qed.

(** X6. A download request is sent only when a contract is on the page:
    every download request in the log comes after a retrieval answered a
    truthy value, itself after a line with the sentinel marker. *)
Theorem X6_download_needs_stored_contract (evs : list event) (body : value) :
  POST_download_contract body ∈ requests (run evs initial) ->
  sentinel_received evs /\
  exists data, Full_ok data ∈ evs /\ truthy data = true.
Proof.
  induction evs as [|e evs IH] using rev_ind; [by intros ?%elem_of_nil|].
  rewrite run_snoc.
  intros [Hold|Ht]%step_download_stored.
  - destruct (IH Hold) as (Hs & data & Hin & Ht).
    split; [by apply sentinel_received_snoc|].
    exists data. split; [apply elem_of_app; by left|done].
  - destruct (stored_needs_sentinel evs) as [_ Hd].
    destruct (Hd (truthy_not_null _ Ht)) as [Hs Hin].
    split; [by apply sentinel_received_snoc|].
    exists (contractData (run evs initial)).
    split; [apply elem_of_app; by left|done].
Qed.

Lemma X6_download_needs_stored_contract_witness :
  let body := download_body (get "contractType" sample_response) in
  POST_download_contract body ∈ requests (run download_session initial) /\
  sentinel_received download_session /\
  exists data, Full_ok data ∈ download_session /\ truthy data = true.
Proof.
  cbn zeta.
  assert (POST_download_contract
            (download_body (get "contractType" sample_response))
          ∈ requests (run download_session initial)) as Hin.
  { vm_compute. do 2 apply list_elem_of_further. apply list_elem_of_here. }
  split; [exact Hin|].
  exact (X6_download_needs_stored_contract _ _ Hin).
Defined.

End NeverFacts.
(** ** The answer of the retrieval *)

Section RetrievalFacts.

Import ContractGenerator Protocol Scenarios Sessions MoreScenarios RightColumn.

Lemma for_lines_in_flight lines : forall content m,
  at_await (for_lines lines content m) <> Idle ->
  error (for_lines lines content m) = error m /\
  isGenerating (for_lines lines content m) = isGenerating m.
Proof.
  induction lines as [|line rest IH]; intros content m; cbn [for_lines];
    [done|].
  destruct (includes line END_OF_DOC); [done|].
  destruct (startsWith line (js "data: ")); [|by apply IH].
  destruct (startsWith (slice 6 line) (js "Error:")); [done|].
  intros [-> ->]%IH. done.
Qed.

(** A promise of the call that settles and leaves the call in flight has
    set no error, stored nothing and left the generation on. *)
Lemma settle_in_flight m e :
  at_await (settle m e) <> Idle ->
  at_await m <> Idle /\
  contractData (settle m e) = contractData m /\
  error (settle m e) = error m /\
  isGenerating (settle m e) = isGenerating m.
Proof.
  unfold settle.
  destruct e; destruct (at_await m) eqn:Hp; cbn; rewrite ?Hp; intros Hs;
    try done.
  split; [done|]. split; [apply for_lines_contractData|].
  by apply for_lines_in_flight.
Qed.

(** In a session of its own, as long as the call is in flight, the
    generation is on, nothing is stored and no error is set. *)
Lemma own_session_in_flight evs m formData :
  forallb is_settlement evs = true ->
  let m1 := run evs (handleGenerateContract formData m) in
  at_await m1 <> Idle ->
  isGenerating m1 = true /\ contractData m1 = VNull /\ error m1 = None.
Proof.
  induction evs as [|e evs IH] using rev_ind; [done|].
  rewrite forallb_app. intros [Hevs He]%andb_true_iff. cbn in He.
  rewrite andb_true_r in He. cbn zeta.
  rewrite run_snoc, (step_settlement _ _ He).
  intros (Hp & -> & -> & ->)%settle_in_flight. by apply IH.
Qed.

(** X7. Take a session from its start in which only promises of this call
    have settled. A retrieval answered by a falsy JSON value (null, false,
    0 or the empty string) ends it without any error: the value is stored,
    no finished contract and no Download button are shown (in their places
    the page has nothing, or the text of the value when it is the number
    0), the streamed text stays on the page, no longer marked as
    streaming, and a click on Download sends nothing. *)
Theorem X7_falsy_answer_is_silent (m : machine) (formData : value)
    (evs : list event) (data : value) :
  forallb is_settlement evs = true ->
  let m1 := run evs (handleGenerateContract formData m) in
  at_await m1 = AwaitFull ->
  truthy data = false ->
  let m' := step m1 (Full_ok data) in
  error m' = None /\ contractData m' = data /\
  at_await m' = Idle /\ isGenerating m' = false /\
  requests m' = requests m1 /\
  download_button (right_column m') =
    match data with VNum _ => Text data | _ => Nothing end /\
  finished_display (right_column m') =
    match data with VNum _ => Text data | _ => Nothing end /\
  streaming_display (right_column m') =
    (if nonempty (streamingContent m1) then
       Some {| content := VStr (streamingContent m1); isStreaming := false;
               metadata := VUndefined |}
     else None) /\
  handleDownload m' = m'.
Proof.
  intros Hevs. cbn zeta.
  set (m1 := run evs (handleGenerateContract formData m)).
  intros Hp Hfalsy.
  destruct (own_session_in_flight evs m formData Hevs) as (_ & _ & He).
  { fold m1. by rewrite Hp. }
  fold m1 in He.
  cbn [step]. unfold settle. rewrite Hp.
  unfold handleDownload, right_column, guarded. cbn.
  rewrite Hfalsy, andb_true_r. cbn.
  split_and!; done.
Qed.

Lemma X7_falsy_answer_is_silent_witness :
  let evs := [Response_ok; Read_chunk (js "data: Hello");
              Read_chunk (js "[END_OF_DOC=abc123]")] in
  let m1 := run evs (handleGenerateContract VNull initial) in
  let m' := step m1 (Full_ok (VNum 0)) in
  forallb is_settlement evs = true /\
  at_await m1 = AwaitFull /\ truthy (VNum 0) = false /\
  error m' = None /\ contractData m' = VNum 0 /\
  download_button (right_column m') = Text (VNum 0) /\
  handleDownload m' = m'.
Proof.
  cbn zeta.
  pose proof (X7_falsy_answer_is_silent initial VNull
                [Response_ok; Read_chunk (js "data: Hello");
                 Read_chunk (js "[END_OF_DOC=abc123]")] (VNum 0)
                eq_refl eq_refl eq_refl)
    as (H1 & H2 & _ & _ & _ & H6 & _ & _ & H9).
  split; [reflexivity|]. split; [reflexivity|]. split; [reflexivity|].
  split; [exact H1|]. split; [exact H2|]. split; [exact H6|exact H9].
Defined.

(** X8. Take a session from its start in which only promises of this call
    have settled. A retrieval that fails leaves no contract: a response
    that is not ok sets the error to "HTTP error! status: " and the status,
    a fetch or a body that throws sets it to the message thrown or, if that
    is empty, to "Failed to get full contract"; in both cases
    [contractData] stays null, nothing more is sent, the streamed text is
    kept and the session is over. *)
Theorem X8_failed_retrieval (m : machine) (formData : value)
    (evs : list event) (status message : jsstring) :
  forallb is_settlement evs = true ->
  let m0 := run evs (handleGenerateContract formData m) in
  at_await m0 = AwaitFull ->
  let m1 := step m0 (Full_not_ok status) in
  let m2 := step m0 (Full_failed message) in
  error m1 = Some (js "HTTP error! status: " ++ status) /\
  error m2 = Some (or_else message (js "Failed to get full contract")) /\
  (contractData m1 = VNull /\ contractData m2 = VNull) /\
  (streamingContent m1 = streamingContent m0 /\
   streamingContent m2 = streamingContent m0) /\
  (requests m1 = requests m0 /\ requests m2 = requests m0) /\
  (at_await m1 = Idle /\ at_await m2 = Idle) /\
  (isGenerating m1 = false /\ isGenerating m2 = false).
Proof.
  intros Hevs. cbn zeta.
  set (m0 := run evs (handleGenerateContract formData m)). intros Hp.
  destruct (own_session_in_flight evs m formData Hevs) as (_ & Hd & _).
  { fold m0. by rewrite Hp. }
  fold m0 in Hd.
  cbn [step]. unfold settle. rewrite Hp. cbn. by rewrite Hd.
Qed.

Lemma X8_failed_retrieval_witness :
  let evs := [Response_ok; Read_chunk (js "[END_OF_DOC=abc123]")] in
  let m0 := run evs (handleGenerateContract VNull initial) in
  let m1 := step m0 (Full_not_ok (js "404")) in
  let m2 := step m0 (Full_failed []) in
  forallb is_settlement evs = true /\
  at_await m0 = AwaitFull /\
  error m1 = Some (js "HTTP error! status: 404") /\
  error m2 = Some (js "Failed to get full contract") /\
  contractData m1 = VNull.
Proof.
  cbn zeta.
  pose proof (X8_failed_retrieval initial VNull
                [Response_ok; Read_chunk (js "[END_OF_DOC=abc123]")]
                (js "404") [] eq_refl eq_refl)
    as (H1 & H2 & [H3 _] & _).
  split; [reflexivity|]. split; [reflexivity|].
  split; [exact H1|]. split; [exact H2|exact H3].
Defined.

(** X15. A generation request that fails before any chunk is read ends the
    call with a message and nothing else: a fetch that throws shows the
    message thrown, a response without a body shows "No response body", a
    response that is not ok shows the message thrown from its body, and an
    empty message is shown as "Failed to generate contract"; the call has
    sent its generation request only, stored no contract and streamed no
    text. *)
Theorem X15_failed_generation_request (m : machine) (formData : value)
    (message : jsstring) :
  let m0 := handleGenerateContract formData m in
  let m1 := step m0 (Fetch_failed message) in
  let m2 := step m0 Response_without_body in
  let m3 := run [Response_not_ok; Error_body_thrown message] m0 in
  error m1 = Some (or_else message (js "Failed to generate contract")) /\
  error m2 = Some (js "No response body") /\
  error m3 = Some (or_else message (js "Failed to generate contract")) /\
  Forall (fun m' =>
            at_await m' = Idle /\ isGenerating m' = false /\
            contractData m' = VNull /\ streamingContent m' = [] /\
            requests m' =
              requests m ++ [POST_generate_contract (JSON_stringify formData)])
         [m1; m2; m3].
Proof.
  cbn zeta. rewrite !Forall_cons, Forall_nil. split_and!; reflexivity.
Qed.

End RetrievalFacts.

(** ** The form *)

Section MoreFormFacts.

Import ContractGenerator Protocol Scenarios Sessions MoreScenarios
  ContractFormView.

Lemma trimStart_fixed s :
  (forall a t, s = a :: t -> is_whitespace a = false) -> trimStart s = s.
Proof.
  destruct s as [|a t]; [done|]. intros H. cbn. by rewrite (H a t eq_refl).
Qed.

Lemma trimEnd_fixed s :
  (forall t a, s = t ++ [a] -> is_whitespace a = false) -> trimEnd s = s.
Proof.
  intros H. unfold trimEnd. rewrite trimStart_fixed; [apply rev_involutive|].
  intros a t Hrev. apply (H (rev t) a).
  by rewrite <- (rev_involutive s), Hrev.
Qed.

(** Trimming what is trimmed changes nothing. *)
Lemma trim_idempotent s : trim (trim s) = trim s.
Proof.
  unfold trim at 1.
  rewrite trimStart_fixed by (intros a t; apply trim_head).
  apply trimEnd_fixed. intros t a. apply trim_last.
Qed.

Lemma nonempty_trim s : nonempty (trim s) = negb (whitespace_only s).
Proof.
  destruct (whitespace_only s) eqn:Hw.
  - by rewrite (trim_blank _ Hw).
  - destruct (nonempty (trim s)) eqn:Hn; [done|].
    destruct (trim s) eqn:Ht; [|done].
    destruct (trim_split s) as (l & r & Hs & Hl & Hr).
    rewrite Ht in Hs. cbn in Hs.
    rewrite Hs, whitespace_only_app, Hl, Hr in Hw. done.
Qed.

(** X9. The form refuses exactly the blank descriptions: [handleSubmit]
    alerts and submits nothing if and only if the description is made of
    whitespace only (the empty one included), which is also exactly when
    the Generate button is disabled; and a description already trimmed is
    submitted as the same request. *)
Theorem X9_blank_descriptions_refused (st : ContractForm.state) :
  (ContractForm.handleSubmit st = None <->
   whitespace_only (ContractForm.businessDescription st) = true) /\
  form_button st false
    = Generate (whitespace_only (ContractForm.businessDescription st)) /\
  ContractForm.handleSubmit
    (ContractForm.setBusinessDescription
       (trim (ContractForm.businessDescription st)) st)
  = ContractForm.handleSubmit st.
Proof.
  split_and!.
  - unfold ContractForm.handleSubmit. rewrite nonempty_trim, negb_involutive.
    by destruct (whitespace_only (ContractForm.businessDescription st)).
  - unfold form_button. cbn [negb]. by rewrite nonempty_trim, negb_involutive.
  - unfold ContractForm.handleSubmit, ContractForm.setBusinessDescription.
    cbn [ContractForm.businessDescription ContractForm.contractType].
    by rewrite trim_idempotent.
Qed.

Lemma for_lines_setForm lines f : forall content m,
  for_lines lines content (setForm f m) = setForm f (for_lines lines content m).
Proof.
  induction lines as [|line rest IH]; intros content m; cbn [for_lines];
    [done|].
  destruct (includes line END_OF_DOC); [done|].
  destruct (startsWith line (js "data: ")); [|apply IH].
  destruct (startsWith (slice 6 line) (js "Error:")); [done|].
  apply (IH _ (setStreamingContent _ m)).
Qed.

Lemma switch_setForm f call m :
  switch call (setForm f m) = setForm f (switch call m).
Proof.
  unfold switch. cbn [parked setForm]. by destruct (parked m !! call).
Qed.

Lemma rejected_by_abort_setForm f m :
  rejected_by_abort (setForm f m) = setForm f (rejected_by_abort m).
Proof.
  unfold rejected_by_abort. cbn [at_await setForm]. by destruct (at_await m).
Qed.

Lemma abort_latest_setForm f m :
  match latest m with
  | None => rejected_by_abort (setForm f m)
  | Some call =>
      match parked m !! call with
      | Some _ => switch call (rejected_by_abort (switch call (setForm f m)))
      | None => setForm f m
      end
  end
  = setForm f
      match latest m with
      | None => rejected_by_abort m
      | Some call =>
          match parked m !! call with
          | Some _ => switch call (rejected_by_abort (switch call m))
          | None => m
          end
      end.
Proof.
  destruct (latest m) as [call|]; [|apply rejected_by_abort_setForm].
  destruct (parked m !! call); [|done].
  by rewrite !switch_setForm, rejected_by_abort_setForm, switch_setForm.
Qed.

Lemma handleStopGeneration_setForm f m :
  handleStopGeneration (setForm f m) = setForm f (handleStopGeneration m).
Proof.
  unfold handleStopGeneration. cbn [abortController setForm].
  destruct (abortController m).
  - exact (abort_latest_setForm f
             (setIsGenerating false (setAbortController (Some true) m))).
  - exact (abort_latest_setForm f (setIsGenerating false m)).
Qed.

Lemma download_answered_setForm f thrown_message m :
  download_answered thrown_message (setForm f m)
  = setForm f (download_answered thrown_message m).
Proof.
  unfold download_answered, download_pending.
  cbn [downloads_answered requests setForm].
  destruct (_ <? _)%nat; [|done]. by destruct thrown_message.
Qed.

Lemma settle_setForm f m e :
  settle (setForm f m) e = setForm f (settle m e).
Proof.
  unfold settle. cbn [at_await setForm].
  destruct e; destruct (at_await m); try done. apply for_lines_setForm.
Qed.

Lemma handleDownload_setForm f m :
  handleDownload (setForm f m) = setForm f (handleDownload m).
Proof.
  unfold handleDownload. cbn [contractData setForm].
  by destruct (truthy (contractData m)).
Qed.

(** X10. What is typed into the form while a session runs changes nothing
    of the session: typing commutes with every event but a click on
    Generate (and another typing). *)
Theorem X10_typing_does_not_interfere (m : machine) (text : jsstring)
    (e : event) :
  is_Click_generate e = false ->
  is_Type_description e = false ->
  step (step m (Type_description text)) e
  = step (step m e) (Type_description text).
Proof.
  intros Hg Ht.
  change (step m (Type_description text))
    with (setForm (ContractForm.setBusinessDescription text (form m)) m).
  change (step (step m e) (Type_description text))
    with (setForm (ContractForm.setBusinessDescription text (form (step m e)))
            (step m e)).
  rewrite step_form.
  destruct e; try discriminate; cbn [step isGenerating setForm];
    rewrite ?settle_setForm, ?handleDownload_setForm, ?switch_setForm,
      ?download_answered_setForm; try done.
  destruct (isGenerating m); by rewrite ?handleStopGeneration_setForm.
Qed.

Lemma X10_typing_does_not_interfere_witness :
  let m := run session_start initial in
  is_Click_generate (Read_chunk (js "data: Hello")) = false /\
  is_Type_description (Read_chunk (js "data: Hello")) = false /\
  step (step m (Type_description (js "other"))) (Read_chunk (js "data: Hello"))
  = step (step m (Read_chunk (js "data: Hello"))) (Type_description (js "other")).
Proof.
  cbn zeta. split; [reflexivity|]. split; [reflexivity|].
  exact (X10_typing_does_not_interfere (run session_start initial) (js "other")
           (Read_chunk (js "data: Hello")) eq_refl eq_refl).
Defined.

End MoreFormFacts.

(** ** Lines *)

Section SplitFacts.

Import ContractGenerator Protocol Sessions.

Lemma split_nonempty sep s : split sep s <> [].
Proof. destruct (split_head sep s) as [ws ->]. done. Qed.

(** X11. The lines the loop sees are the chunk cut at its line feeds: no
    line holds a line feed, and joined by line feeds they give the chunk
    back, so no text of a chunk is lost by the split. *)
Theorem X11_lines_of_a_chunk (chunk : jsstring) :
  join 10 (split 10 chunk) = chunk /\
  Forall (fun line => 10 ∉ line) (split 10 chunk).
Proof.
  induction chunk as [|a s [IHj IHf]]; cbn [split].
  - split; [done|]. apply Forall_cons. split; [apply not_elem_of_nil|done].
  - destruct (unit_eqb a 10) eqn:Ha.
    + apply unit_eqb_eq in Ha as ->. split.
      * cbn [join]. destruct (split 10 s) eqn:Hs; [by destruct (split_nonempty 10 s)|].
        by rewrite IHj.
      * apply Forall_cons. split; [apply not_elem_of_nil|done].
    + apply unit_eqb_neq in Ha.
      destruct (split 10 s) as [|w ws] eqn:Hs; [by destruct (split_nonempty 10 s)|].
      apply Forall_cons in IHf as [Hw Hws]. split.
      * cbn [join] in *. destruct ws; cbn; by rewrite <- IHj.
      * apply Forall_cons. split; [|done].
        intros [?|?]%elem_of_cons; [congruence|done].
Qed.

End SplitFacts.

(** ** The display *)

Section MoreDisplayFacts.

Import ContractGenerator ContractDisplay Protocol Scenarios Sessions
  MoreScenarios.

(** Case analysis on every comparison of code units in the goal. *)
Ltac compare_units :=
  repeat (match goal with
          | |- context [N.leb ?x ?y] => destruct (N.leb_spec x y)
          | |- context [N.eqb ?x ?y] => destruct (N.eqb_spec x y)
          end; cbn in *);
  try reflexivity; try lia.

Lemma toUpperCase_word a : is_word (toUpperCase a) = is_word a.
Proof. unfold toUpperCase, is_word. compare_units. Qed.

Lemma toUpperCase_idempotent a : toUpperCase (toUpperCase a) = toUpperCase a.
Proof. unfold toUpperCase. compare_units. Qed.

Lemma toUpperCase_not_underscore a : a <> 95 -> toUpperCase a <> 95.
Proof. unfold toUpperCase. intros Ha. compare_units. Qed.

Lemma capitalize_length s : forall after_word,
  length (capitalize after_word s) = length s.
Proof. induction s as [|a s IH]; intros b; cbn; [done|]. by rewrite IH. Qed.

Lemma capitalize_idempotent s : forall after_word,
  capitalize after_word (capitalize after_word s) = capitalize after_word s.
Proof.
  induction s as [|a s IH]; intros b; cbn [capitalize]; [done|].
  destruct (is_word a && negb b) eqn:Hc.
  - rewrite toUpperCase_word, Hc, toUpperCase_idempotent. by rewrite IH.
  - rewrite Hc. by rewrite IH.
Qed.

Lemma capitalize_no_underscore s : forall after_word,
  95 ∉ s -> 95 ∉ capitalize after_word s.
Proof.
  induction s as [|a s IH]; intros b Hn; cbn [capitalize]; [done|].
  apply not_elem_of_cons in Hn as [Ha Hs].
  apply not_elem_of_cons. split; [|by apply IH].
  destruct (is_word a && negb b); [|done].
  intros Heq. by apply (toUpperCase_not_underscore a).
Qed.

Lemma replaced_no_underscore (s : jsstring) :
  95 ∉ ((fun a => if a =? 95 then 32 else a) <$> s).
Proof.
  induction s as [|a s IH]; cbn; [apply not_elem_of_nil|].
  apply not_elem_of_cons. split; [|done].
  destruct (N.eqb_spec a 95); [done|congruence].
Qed.

Lemma replace_without_underscore (s : jsstring) :
  95 ∉ s -> (fun a => if a =? 95 then 32 else a) <$> s = s.
Proof.
  induction s as [|a s IH]; intros Hn; cbn; [done|].
  apply not_elem_of_cons in Hn as [Ha Hs].
  rewrite IH by done. by destruct (N.eqb_spec a 95).
Qed.

(** X12. [formatContractType] keeps the length of the type, leaves no
    underscore in it, and changes nothing of a type already formatted. *)
Theorem X12_formatContractType (type : jsstring) :
  length (formatContractType type) = length type /\
  (95 ∉ formatContractType type) /\
  formatContractType (formatContractType type) = formatContractType type.
Proof.
  unfold formatContractType. split_and!.
  - by rewrite capitalize_length, length_fmap.
  - apply capitalize_no_underscore, replaced_no_underscore.
  - rewrite replace_without_underscore
      by apply capitalize_no_underscore, replaced_no_underscore.
    apply capitalize_idempotent.
Qed.

(** X13. The page throws only on a stored contract: a render of the right
    column throws exactly when [contractData] is truthy and its
    [contract_type] is not a string, or one of the four properties put on
    the page as children ([total_sections], [estimated_pages],
    [generation_time], [model_used]) is an object or an array that holds
    one, or its [htmlContent] is a truthy value without an [includes]
    method (true, a number other than 0, an object); the streamed text
    alone never makes it throw. *)
Theorem X13_when_the_page_throws (m : machine) :
  None ∈ page m <->
  truthy (contractData m) = true /\
  (is_string (get "contract_type" (contractData m)) = false \/
   forallb (fun k => renderable (get k (contractData m))) child_fields
     = false \/
   lacks_includes (get "htmlContent" (contractData m)) = true).
Proof.
  unfold page, render.
  destruct (truthy (contractData m)) eqn:Ht.
  - rewrite andb_false_r. cbn [app fmap list_fmap].
    unfold ContractDisplay. cbn [metadata content isStreaming]. rewrite Ht.
    rewrite list_elem_of_singleton.
    destruct (forallb (fun k => renderable (get k (contractData m)))
                child_fields);
      destruct (get "contract_type" (contractData m));
      destruct (get "htmlContent" (contractData m)) as [| |[|]| | | |];
      cbn;
      try match goal with
          | |- context [Qeq_bool ?x 0] => destruct (Qeq_bool x 0)
          end;
      cbn; intuition congruence.
  - rewrite andb_true_r.
    split; [|by intros [? _]].
    destruct (nonempty (streamingContent m)); cbn.
    + by intros [= ]%list_elem_of_singleton.
    + by intros ?%elem_of_nil.
Qed.

(** X14. For a stored contract of the declared response type, which has
    [contract_type] and no [contractType], the download request carries
    neither a business context nor a contract type: its body is made of the
    three constants only. *)
Theorem X14_download_of_declared_response (m : machine) :
  truthy (contractData m) = true ->
  only_declared_fields ContractGenerationResponse (contractData m) ->
  handleDownload m = send (POST_download_contract bare_download_body) m.
Proof.
  intros Ht Hd. unfold handleDownload. rewrite Ht. cbn [negb].
  rewrite (undeclared_is_undefined _ _ "businessContext" Hd) by by_computation.
  rewrite (undeclared_is_undefined _ _ "contractType" Hd) by by_computation.
  reflexivity.
Qed.

Lemma X14_download_of_declared_response_witness :
  let m := run (sentinel_session ++ [Full_ok sample_response]) initial in
  truthy (contractData m) = true /\
  only_declared_fields ContractGenerationResponse (contractData m) /\
  handleDownload m = send (POST_download_contract bare_download_body) m.
Proof.
  cbn zeta.
  assert (only_declared_fields ContractGenerationResponse
            (contractData (run (sentinel_session ++ [Full_ok sample_response])
                             initial))) as Hd.
  { change (only_declared_fields ContractGenerationResponse sample_response).
    apply obj_only_declared. by_computation. }
  split; [reflexivity|]. split; [exact Hd|].
  exact (X14_download_of_declared_response
           (run (sentinel_session ++ [Full_ok sample_response]) initial)
           eq_refl Hd).
Defined.

End MoreDisplayFacts.
